(** * TypeScript NativeModule schema builder

    A shallow embedding of
    [packages/react-native-codegen/src/parsers/typescript/modules/index.js]:
    the type-annotation translator ([translateTypeAnnotation],
    [translateArrayTypeAnnotation], [translateFunctionTypeAnnotation]),
    the per-member builder ([buildPropertySchema]) and the module builder
    ([buildModuleSchema]).

    JavaScript objects used as dictionaries (the alias map, the type
    declaration map) are finite maps over strings; exceptions, the array of
    captured parser errors and the alias map that the translator mutates in
    place are threaded through a small state-and-exception monad. *)

From stdpp Require Import gmap strings list fin_maps.

#[local] Set Warnings "-register-all".
Local Open Scope string_scope.
Local Open Scope list_scope.

(** ** Syntax tree (the part of the Babel TypeScript AST the module reads) *)

(** A declared function parameter: [name], [optional] and the type under
    [typeAnnotation.typeAnnotation] ([None] when the parameter carries no
    annotation). *)
Module Param.
Record t (T : Type) : Type :=
  mk { name : string; optional : bool; typeAnnotation : option T }.
Arguments mk {T}.
Arguments name {T}.
Arguments optional {T}.
Arguments typeAnnotation {T}.
End Param.

(** Type nodes and the members of interfaces and object literals.  Fields
    that hold a [TSTypeAnnotation] wrapper in the tree hold the wrapped type
    here ([None]: the field is absent).  [optional] is [false] when the tree
    has no such field.  [TSLiteralType] keeps the [type] of its literal. *)
Inductive TSNode : Type :=
| TSArrayType (elementType : TSNode)
| TSTypeOperator (operator : string) (typeAnnotation : TSNode)
| TSTypeReference (typeName : string) (typeParameters : option (list TSNode))
| TSTypeLiteral (members : list TSNode)
| TSBooleanKeyword
| TSNumberKeyword
| TSVoidKeyword
| TSStringKeyword
| TSUnknownKeyword
| TSNullKeyword
| TSUndefinedKeyword
| TSFunctionType (parameters : list (Param.t TSNode))
    (typeAnnotation : option TSNode)
| TSUnionType (types : list TSNode)
| TSLiteralType (literal : string)
| TSPropertySignature (key : string) (optional : bool)
    (typeAnnotation : option TSNode)
| TSMethodSignature (key : string) (optional : bool)
    (parameters : list (Param.t TSNode)) (typeAnnotation : option TSNode)
| TSOtherNode (type : string).

(** One entry of an interface's [extends] list. *)
Record Heritage : Type :=
  { heritageType : string; expressionName : string }.

(** An enum member: the [type] of its initializer, when it has one. *)
Record EnumMember : Type := { initializer : option string }.

Inductive Declaration : Type :=
| TSInterfaceDeclaration (id : string) (extends : list Heritage)
    (body : list TSNode)
| TSTypeAliasDeclaration (id : string) (typeAnnotation : TSNode)
| TSEnumDeclaration (id : string) (members : list EnumMember).

Definition declarationName (d : Declaration) : string :=
  match d with
  | TSInterfaceDeclaration id _ _ => id
  | TSTypeAliasDeclaration id _ => id
  | TSEnumDeclaration id _ => id
  end.

Abbreviation TypeDeclarationMap := (gmap string Declaration).

(** Call expressions, as [isModuleRegistryCall] and the registration checks
    read them. *)
Record MemberExpression : Type :=
  { objectType : string; objectName : string;
    propertyType : string; propertyName : string;
    computed : bool }.

Inductive Callee : Type :=
| CalleeMember (m : MemberExpression)
| CalleeOther (type : string).

Record Argument : Type := { argumentType : string; argumentValue : string }.

Record TypeParameters : Type :=
  { typeParametersType : string; typeParametersParams : list TSNode }.

Record CallExpression : Type :=
  { callee : Callee;
    arguments : list Argument;
    typeParameters : option TypeParameters }.

(** The parsed file: its top-level type declarations in source order and
    every call expression of the tree in visiting order. *)
Record Ast : Type :=
  { declarations : list Declaration;
    callExpressions : list CallExpression }.

(** ** Schema (CodegenSchema.js) *)

Module NamedShape.
Record t (T : Type) : Type :=
  mk { name : string; optional : bool; typeAnnotation : T }.
Arguments mk {T}.
Arguments name {T}.
Arguments optional {T}.
Arguments typeAnnotation {T}.
End NamedShape.

Inductive NativeModuleTypeAnnotation : Type :=
| NullableTypeAnnotation (typeAnnotation : NativeModuleTypeAnnotation)
| ArrayTypeAnnotation (elementType : option NativeModuleTypeAnnotation)
| ReservedTypeAnnotation (name : string)
| PromiseTypeAnnotation
| StringTypeAnnotation
| Int32TypeAnnotation
| DoubleTypeAnnotation
| FloatTypeAnnotation
| NumberTypeAnnotation
| BooleanTypeAnnotation
| VoidTypeAnnotation
| GenericObjectTypeAnnotation
| EnumDeclaration (memberType : string)
| ObjectTypeAnnotation
    (properties : list (NamedShape.t NativeModuleTypeAnnotation))
| TypeAliasTypeAnnotation (name : string)
| FunctionTypeAnnotation (returnTypeAnnotation : NativeModuleTypeAnnotation)
    (params : list (NamedShape.t NativeModuleTypeAnnotation))
| UnionTypeAnnotation (memberType : option string)
| MixedTypeAnnotation.

Abbreviation NativeModulePropertyShape :=
  (NamedShape.t NativeModuleTypeAnnotation).
Abbreviation NativeModuleAliasMap := (gmap string NativeModuleTypeAnnotation).

Record NativeModuleSchema : Type :=
  { aliases : NativeModuleAliasMap;
    properties : list NativeModulePropertyShape;
    moduleNames : list string;
    excludedPlatforms : option (list string) }.

(** ** Errors (errors.js): the classes the module throws, by name *)

Inductive ParserErrorKind : Type :=
| MisnamedModuleInterface
| ModuleInterfaceNotFound
| MoreThanOneModuleInterface
| UnnamedFunctionParam
| UnsupportedArrayElementTypeAnnotation
| UnsupportedGeneric
| UnsupportedTypeAnnotation
| UnsupportedFunctionParamTypeAnnotation
| UnsupportedFunctionReturnTypeAnnotation
| UnsupportedEnumDeclaration
| UnsupportedUnionTypeAnnotation
| UnsupportedModuleProperty
| UnsupportedObjectPropertyTypeAnnotation
| UnsupportedObjectPropertyValueTypeAnnotation
| UnusedModuleInterface
| MoreThanOneModuleRegistryCalls
| UntypedModuleRegistryCall
| IncorrectModuleRegistryCallTypeParameter
| IncorrectModuleRegistryCallArity
| IncorrectModuleRegistryCallArgumentType
| MissingTypeParameterGeneric
| MoreThanOneTypeParameterGeneric.

(** A parser error keeps its class and the module it was raised for. *)
Record ParserError : Type :=
  { kind : ParserErrorKind; hasteModuleNameOf : string }.

(** What a JavaScript [throw] can carry here: a parser error, the
    [TypeError] of a property read on [undefined], or a failed
    [invariant]. *)
Inductive Exception : Type :=
| ParserErr (e : ParserError)
| TypeError
| InvariantViolation.

(** ** The monad: mutable store, exceptions, fuel *)

(** [aliasMap] is the object the translator receives and mutates;
    [errors] is the array owned by the error capturer. *)
Record Store : Type :=
  { aliasMap : NativeModuleAliasMap; errors : list ParserError }.

Inductive Outcome (A : Type) : Type :=
| Returned (a : A)
| Thrown (e : Exception)
| OutOfFuel.
Arguments Returned {A}.
Arguments Thrown {A}.
Arguments OutOfFuel {A}.

(** A computation always hands back the store: writes made before a
    [throw] stay visible to whoever catches it. *)
Definition M (A : Type) : Type := Store -> Outcome A * Store.

Definition ret {A} (a : A) : M A := fun s => (Returned a, s).

Definition bind {A B} (m : M A) (k : A -> M B) : M B :=
  fun s =>
    match m s with
    | (Returned a, s') => k a s'
    | (Thrown e, s') => (Thrown e, s')
    | (OutOfFuel, s') => (OutOfFuel, s')
    end.

Definition throw {A} (e : Exception) : M A := fun s => (Thrown e, s).

Definition diverge {A} : M A := fun s => (OutOfFuel, s).

Definition liftOutcome {A} (o : Outcome A) : M A := fun s => (o, s).

(** [try { body } catch (ex) { handler }]: every exception is caught. *)
Definition tryCatch {A} (body : M A) (handler : Exception -> M A) : M A :=
  fun s =>
    match body s with
    | (Thrown e, s') => handler e s'
    | r => r
    end.

Declare Scope js_scope.
Delimit Scope js_scope with js.
Notation "'let*' x ':=' m 'in' k" := (bind m (fun x => k))
  (at level 10, x pattern, m at level 100, k at level 200) : js_scope.
Notation "m ';;' k" := (bind m (fun _ => k))
  (at level 100, k at level 200, right associativity) : js_scope.
Local Open Scope js_scope.

Definition throwParserError {A} (k : ParserErrorKind) (hasteModuleName : string)
  : M A :=
  throw (ParserErr {| kind := k; hasteModuleNameOf := hasteModuleName |}).

(** [array.map(f)] for an effectful [f], left to right. *)
Fixpoint mapM {A B} (f : A -> M B) (l : list A) : M (list B) :=
  match l with
  | [] => ret []
  | x :: l' =>
      let* y := f x in
      let* ys := mapM f l' in
      ret (y :: ys)
  end.

(** Store accessors. *)
Definition getAliasMap : M NativeModuleAliasMap :=
  fun s => (Returned (aliasMap s), s).

Definition setAlias (name : string) (t : NativeModuleTypeAnnotation) : M unit :=
  fun s =>
    (Returned tt,
     {| aliasMap := <[name := t]> (aliasMap s); errors := errors s |}).

Definition newAliasMap : M unit :=
  fun s => (Returned tt, {| aliasMap := ∅; errors := errors s |}).

Definition pushError (e : ParserError) (s : Store) : Store :=
  {| aliasMap := aliasMap s; errors := errors s ++ [e] |}.

(** The type of [tryParse]. *)
Definition ParserErrorCapturer : Type := forall T : Type, M T -> M (option T).

(** [nullGuard] (index.js): runs [fn] and captures nothing. *)
Definition nullGuard : ParserErrorCapturer :=
  fun T fn => let* r := fn in ret (Some r).

(** ** Collaborators outside index.js *)

(** Modelled from the spec: the ErrorCapturer ([createParserErrorCapturer]
    in parsers/utils.js, which builds the [tryParse] handed to
    [buildModuleSchema]).  It runs the thunk; a parser error is appended to
    the module's error list and the call yields nothing; any other exception
    propagates. *)
Definition guard : ParserErrorCapturer :=
  fun T fn s =>
    match fn s with
    | (Returned r, s') => (Returned (Some r), s')
    | (Thrown (ParserErr e), s') => (Returned None, pushError e s')
    | (Thrown e, s') => (Thrown e, s')
    | (OutOfFuel, s') => (OutOfFuel, s')
    end.

(** Modelled from the spec: [wrapNullable] of parsers-commons.js.  A
    nullable annotation is the annotation under one [NullableTypeAnnotation]
    layer; wrapping never nests. *)
Definition wrapNullable (nullable : bool) (t : NativeModuleTypeAnnotation)
  : NativeModuleTypeAnnotation :=
  if nullable then
    match t with
    | NullableTypeAnnotation _ => t
    | _ => NullableTypeAnnotation t
    end
  else t.

(** Modelled from the spec: [unwrapNullable] of parsers-commons.js, the
    annotation and its nullability flag. *)
Definition unwrapNullable (t : NativeModuleTypeAnnotation)
  : NativeModuleTypeAnnotation * bool :=
  match t with
  | NullableTypeAnnotation t' => (t', true)
  | _ => (t, false)
  end.

(** Modelled from the spec:
    [assertGenericTypeAnnotationHasExactlyOneTypeParameter] of
    parsers-commons.js; any argument count other than one is an error. *)
Definition assertGenericTypeAnnotationHasExactlyOneTypeParameter
    (hasteModuleName : string) (typeParameters : option (list TSNode))
  : M TSNode :=
  match typeParameters with
  | None => throwParserError MissingTypeParameterGeneric hasteModuleName
  | Some [param] => ret param
  | Some _ => throwParserError MoreThanOneTypeParameterGeneric hasteModuleName
  end.

(** Modelled from the spec: the emitters of parsers-primitives.js, one
    schema variant each under the caller's nullability. *)
Definition emitBoolean (nullable : bool) := wrapNullable nullable BooleanTypeAnnotation.
Definition emitDouble (nullable : bool) := wrapNullable nullable DoubleTypeAnnotation.
Definition emitNumber (nullable : bool) := wrapNullable nullable NumberTypeAnnotation.
Definition emitInt32 (nullable : bool) := wrapNullable nullable Int32TypeAnnotation.
Definition emitObject (nullable : bool) := wrapNullable nullable GenericObjectTypeAnnotation.
Definition emitRootTag (nullable : bool) := wrapNullable nullable (ReservedTypeAnnotation "RootTag").
Definition emitVoid (nullable : bool) := wrapNullable nullable VoidTypeAnnotation.
Definition emitStringish (nullable : bool) := wrapNullable nullable StringTypeAnnotation.

(** Modelled from the spec: [emitPromise] of parsers-primitives.js; the
    promise's own type argument must be exactly one. *)
Definition emitPromise (hasteModuleName : string)
    (typeParameters : option (list TSNode)) (nullable : bool)
  : M NativeModuleTypeAnnotation :=
  assertGenericTypeAnnotationHasExactlyOneTypeParameter hasteModuleName
    typeParameters;;
  ret (wrapNullable nullable PromiseTypeAnnotation).

(** Modelled from the spec: [typeAliasResolution] of parsers-primitives.js.
    An object type reached through a named alias is recorded under that name
    in the alias map and referred to by name; an anonymous one is inlined. *)
Definition typeAliasResolution (typeAliasResolutionStatus : option string)
    (objectTypeAnnotation : NativeModuleTypeAnnotation) (nullable : bool)
  : M NativeModuleTypeAnnotation :=
  match typeAliasResolutionStatus with
  | None => ret (wrapNullable nullable objectTypeAnnotation)
  | Some aliasName =>
      setAlias aliasName objectTypeAnnotation;;
      ret (wrapNullable nullable (TypeAliasTypeAnnotation aliasName))
  end.

(** The result of [resolveTypeAnnotation];
    [typeAliasResolutionStatus] is [Some aliasName] when successful. *)
Record Resolved : Type :=
  { nullable : bool;
    typeAnnotation : TSNode;
    typeAliasResolutionStatus : option string }.

Definition isNullMarker (t : TSNode) : bool :=
  match t with
  | TSNullKeyword | TSUndefinedKeyword => true
  | _ => false
  end.

(** Modelled from the spec: the AnnotationResolver ([resolveTypeAnnotation]
    in parsers/typescript/utils.js).  A union with a [null] or [undefined]
    member is a nullability marker around its first other member; a named
    reference to a type alias is replaced by the alias's right-hand side and
    the name is recorded; a reference to an enum or to no declaration is
    left as it is.  The loop is bounded by [fuel]: a cyclic alias never
    resolves. *)
Fixpoint resolveTypeAnnotationLoop (fuel : nat) (types : TypeDeclarationMap)
    (node : TSNode) (nullable : bool) (status : option string)
  : Outcome Resolved :=
  match fuel with
  | 0 => OutOfFuel
  | S fuel' =>
      let stop :=
        Returned {| nullable := nullable; typeAnnotation := node;
                    typeAliasResolutionStatus := status |} in
      match node with
      | TSUnionType ts =>
          if existsb isNullMarker ts then
            match filter (fun t => isNullMarker t = false) ts with
            | t :: _ => resolveTypeAnnotationLoop fuel' types t true status
            | [] => Thrown TypeError
            end
          else stop
      | TSTypeReference name _ =>
          match types !! name with
          | None => Returned {| nullable := nullable; typeAnnotation := node;
                                typeAliasResolutionStatus := Some name |}
          | Some (TSEnumDeclaration _ _) =>
              Returned {| nullable := nullable; typeAnnotation := node;
                          typeAliasResolutionStatus := Some name |}
          | Some (TSTypeAliasDeclaration _ rhs) =>
              resolveTypeAnnotationLoop fuel' types rhs nullable (Some name)
          | Some (TSInterfaceDeclaration _ _ _) => Thrown InvariantViolation
          end
      | _ => stop
      end
  end.

Definition resolveTypeAnnotation (fuel : nat) (typeAnnotation : TSNode)
    (types : TypeDeclarationMap) : Outcome Resolved :=
  resolveTypeAnnotationLoop fuel types typeAnnotation false None.

(** Modelled from the spec: the TypeEnvironment ([getTypes] in
    parsers/typescript/utils.js): every top-level interface, type alias and
    enum by name, the last declaration of a name winning. *)
Definition getTypes (ast : Ast) : TypeDeclarationMap :=
  foldl (fun types d => <[declarationName d := d]> types) ∅ (declarations ast).

(** Modelled from the spec: [isModuleRegistryCall] of
    parsers/typescript/utils.js, a non-computed call through
    [TurboModuleRegistry.get] or [TurboModuleRegistry.getEnforcing]. *)
Definition isModuleRegistryCall (node : CallExpression) : bool :=
  match callee node with
  | CalleeMember m =>
      String.eqb (objectType m) "Identifier"
      && String.eqb (objectName m) "TurboModuleRegistry"
      && String.eqb (propertyType m) "Identifier"
      && (String.eqb (propertyName m) "get"
          || String.eqb (propertyName m) "getEnforcing")
      && negb (computed m)
  | CalleeOther _ => false
  end.

(** ** JavaScript string and array primitives used by index.js *)

(** [s.replace(pattern, replacement)] for a string pattern: the first
    occurrence only. *)
Fixpoint replace (pattern replacement s : string) : string :=
  if String.prefix pattern s then
    replacement +:+
      String.substring (String.length pattern)
        (String.length s - String.length pattern) s
  else
    match s with
    | EmptyString => EmptyString
    | String c s' => String c (replace pattern replacement s')
    end.

(** [s.endsWith(suffix)]. *)
Definition endsWith (s suffix : string) : bool :=
  String.prefix (String.rev suffix) (String.rev s).

(** [self.indexOf(value)]; [None] stands for [-1]. *)
Definition indexOf (value : string) (self : list string) : option nat :=
  fst <$> list_find (fun x => x = value) self.

(** [self.filter((value, index, self) => self.indexOf(value) === index)]. *)
Definition dedupe (self : list string) : list string :=
  omap id
    (imap (fun index value =>
             if bool_decide (indexOf value self = Some index)
             then Some value else None) self).

(** ** index.js *)

(** The literal-name remapping shared by enum members and union members:
    [type.replace('NumericLiteral', 'NumberTypeAnnotation')
         .replace('StringLiteral', 'StringTypeAnnotation')]. *)
Definition remapLiteralName (type : string) : string :=
  replace "StringLiteral" "StringTypeAnnotation"
    (replace "NumericLiteral" "NumberTypeAnnotation" type).

(** The callback of [typeAnnotation.types.map] in the union case. *)
Definition unionMemberType (item : TSNode) : string :=
  match item with
  | TSLiteralType literal => remapLiteralName literal
  | _ => "ObjectTypeAnnotation"
  end.

(** The three mutually recursive translators.  The [aliasMap] argument of
    the source is the store's alias map.  [fuel] bounds the depth of the
    recursion, which in the source follows the type declarations. *)
Fixpoint translateTypeAnnotation (fuel : nat) (hasteModuleName : string)
    (typeScriptTypeAnnotation : TSNode) (types : TypeDeclarationMap)
    (tryParse : ParserErrorCapturer) (cxxOnly : bool) {struct fuel}
  : M NativeModuleTypeAnnotation :=
  match fuel with
  | 0 => diverge
  | S fuel' =>
    let* resolved :=
      liftOutcome (resolveTypeAnnotation fuel' typeScriptTypeAnnotation types) in
    let nullable := nullable resolved in
    let typeAliasResolutionStatus := typeAliasResolutionStatus resolved in
    let unsupported : M NativeModuleTypeAnnotation :=
      throwParserError UnsupportedTypeAnnotation hasteModuleName in
    let unknownKeyword : M NativeModuleTypeAnnotation :=
      if cxxOnly then ret (wrapNullable nullable MixedTypeAnnotation)
      else unsupported in
    match typeAnnotation resolved with
    | TSArrayType elementType =>
        translateArrayTypeAnnotation fuel' hasteModuleName types cxxOnly
          "Array" elementType nullable
    | TSTypeOperator operator inner =>
        match inner with
        | TSArrayType elementType =>
            if String.eqb operator "readonly" then
              translateArrayTypeAnnotation fuel' hasteModuleName types cxxOnly
                "ReadonlyArray" elementType nullable
            else throwParserError UnsupportedGeneric hasteModuleName
        | _ => throwParserError UnsupportedGeneric hasteModuleName
        end
    | TSTypeReference name typeParameters =>
        if String.eqb name "RootTag" then ret (emitRootTag nullable)
        else if String.eqb name "Promise" then
          emitPromise hasteModuleName typeParameters nullable
        else if String.eqb name "Array" || String.eqb name "ReadonlyArray" then
          let* param :=
            assertGenericTypeAnnotationHasExactlyOneTypeParameter
              hasteModuleName typeParameters in
          translateArrayTypeAnnotation fuel' hasteModuleName types cxxOnly
            "TSTypeReference" param nullable
        else if String.eqb name "Stringish" then ret (emitStringish nullable)
        else if String.eqb name "Int32" then ret (emitInt32 nullable)
        else if String.eqb name "Double" then ret (emitDouble nullable)
        else if String.eqb name "Float" then
          ret (wrapNullable nullable FloatTypeAnnotation)
        else if String.eqb name "UnsafeObject" || String.eqb name "Object" then
          ret (emitObject nullable)
        else
          match cxxOnly, types !! name with
          | true, Some (TSEnumDeclaration _ members) =>
              match members with
              | [] => throw TypeError
              | member :: _ =>
                  let memberType :=
                    match initializer member with
                    | Some type => remapLiteralName type
                    | None => "StringTypeAnnotation"
                    end in
                  if String.eqb memberType "NumberTypeAnnotation"
                     || String.eqb memberType "StringTypeAnnotation"
                  then ret (wrapNullable nullable (EnumDeclaration memberType))
                  else throwParserError UnsupportedEnumDeclaration
                         hasteModuleName
              end
          | _, _ => throwParserError UnsupportedGeneric hasteModuleName
          end
    | TSTypeLiteral members =>
        let* properties :=
          mapM (fun property =>
            tryParse _
              match property with
              | TSPropertySignature key optional propertyType =>
                  match propertyType with
                  | None => throw TypeError
                  | Some propertyType =>
                      let* translated :=
                        translateTypeAnnotation fuel' hasteModuleName
                          propertyType types tryParse cxxOnly in
                      let '(propertyTypeAnnotation, isPropertyNullable) :=
                        unwrapNullable translated in
                      match propertyTypeAnnotation with
                      | FunctionTypeAnnotation _ _
                      | VoidTypeAnnotation
                      | PromiseTypeAnnotation =>
                          throwParserError
                            UnsupportedObjectPropertyValueTypeAnnotation
                            hasteModuleName
                      | _ =>
                          ret (NamedShape.mk key optional
                                 (wrapNullable isPropertyNullable
                                    propertyTypeAnnotation))
                      end
                  end
              | _ =>
                  throwParserError UnsupportedObjectPropertyTypeAnnotation
                    hasteModuleName
              end) members in
        typeAliasResolution typeAliasResolutionStatus
          (ObjectTypeAnnotation (omap id properties)) nullable
    | TSBooleanKeyword => ret (emitBoolean nullable)
    | TSNumberKeyword => ret (emitNumber nullable)
    | TSVoidKeyword => ret (emitVoid nullable)
    | TSStringKeyword => ret (wrapNullable nullable StringTypeAnnotation)
    | TSFunctionType _ _ =>
        let* fn :=
          translateFunctionTypeAnnotation fuel' hasteModuleName
            (typeAnnotation resolved) types tryParse cxxOnly in
        ret (wrapNullable nullable fn)
    | TSUnionType unionMembers =>
        if cxxOnly then
          let unionTypes := dedupe (map unionMemberType unionMembers) in
          if bool_decide (1 < length unionTypes) then
            throwParserError UnsupportedUnionTypeAnnotation hasteModuleName
          else
            ret (wrapNullable nullable (UnionTypeAnnotation (unionTypes !! 0)))
        else unknownKeyword
    | TSUnknownKeyword => unknownKeyword
    | _ => unsupported
    end
  end

with translateArrayTypeAnnotation (fuel : nat) (hasteModuleName : string)
    (types : TypeDeclarationMap) (cxxOnly : bool) (tsArrayType : string)
    (tsElementType : TSNode) (nullable : bool) {struct fuel}
  : M NativeModuleTypeAnnotation :=
  match fuel with
  | 0 => diverge
  | S fuel' =>
    tryCatch
      (let* translated :=
         translateTypeAnnotation fuel' hasteModuleName tsElementType types
           nullGuard cxxOnly in
       let '(elementType, isElementTypeNullable) := unwrapNullable translated in
       match elementType with
       | VoidTypeAnnotation
       | PromiseTypeAnnotation
       | FunctionTypeAnnotation _ _ =>
           throwParserError UnsupportedArrayElementTypeAnnotation
             hasteModuleName
       | _ =>
           ret (wrapNullable nullable
                  (ArrayTypeAnnotation
                     (Some (wrapNullable isElementTypeNullable elementType))))
       end)
      (fun ex => ret (wrapNullable nullable (ArrayTypeAnnotation None)))
  end

with translateFunctionTypeAnnotation (fuel : nat) (hasteModuleName : string)
    (typescriptFunctionTypeAnnotation : TSNode) (types : TypeDeclarationMap)
    (tryParse : ParserErrorCapturer) (cxxOnly : bool) {struct fuel}
  : M NativeModuleTypeAnnotation :=
  match fuel with
  | 0 => diverge
  | S fuel' =>
    let translate (parameters : list (Param.t TSNode))
        (returnType : option TSNode) : M NativeModuleTypeAnnotation :=
      let* parsedParams :=
        mapM (fun typeScriptParam =>
          tryParse _
            match Param.typeAnnotation typeScriptParam with
            | None => throwParserError UnnamedFunctionParam hasteModuleName
            | Some paramType =>
                let* translated :=
                  translateTypeAnnotation fuel' hasteModuleName paramType
                    types tryParse cxxOnly in
                let '(paramTypeAnnotation, isParamTypeAnnotationNullable) :=
                  unwrapNullable translated in
                match paramTypeAnnotation with
                | VoidTypeAnnotation
                | PromiseTypeAnnotation =>
                    throwParserError UnsupportedFunctionParamTypeAnnotation
                      hasteModuleName
                | _ =>
                    ret (NamedShape.mk (Param.name typeScriptParam)
                           (Param.optional typeScriptParam)
                           (wrapNullable isParamTypeAnnotationNullable
                              paramTypeAnnotation))
                end
            end) parameters in
      let params := omap id parsedParams in
      match returnType with
      | None => throw TypeError
      | Some returnType =>
          let* translated :=
            translateTypeAnnotation fuel' hasteModuleName returnType types
              tryParse cxxOnly in
          let '(returnTypeAnnotation, isReturnTypeAnnotationNullable) :=
            unwrapNullable translated in
          match cxxOnly, returnTypeAnnotation with
          | false, FunctionTypeAnnotation _ _ =>
              throwParserError UnsupportedFunctionReturnTypeAnnotation
                hasteModuleName
          | _, _ =>
              ret (FunctionTypeAnnotation
                     (wrapNullable isReturnTypeAnnotationNullable
                        returnTypeAnnotation)
                     params)
          end
      end in
    match typescriptFunctionTypeAnnotation with
    | TSFunctionType parameters returnType => translate parameters returnType
    | TSMethodSignature _ _ parameters returnType =>
        translate parameters returnType
    | _ => throw TypeError
    end
  end.

Definition buildPropertySchema (fuel : nat) (hasteModuleName : string)
    (property : TSNode) (types : TypeDeclarationMap)
    (tryParse : ParserErrorCapturer) (cxxOnly : bool)
  : M NativeModulePropertyShape :=
  let build (methodName : string) (optional : bool) (value : option TSNode)
    : M NativeModulePropertyShape :=
    match value with
    | None => throw InvariantViolation
    | Some value =>
        let* resolved := liftOutcome (resolveTypeAnnotation fuel value types) in
        match typeAnnotation resolved with
        | (TSFunctionType _ _ | TSMethodSignature _ _ _ _) as value =>
            let* fn :=
              translateFunctionTypeAnnotation fuel hasteModuleName value types
                tryParse cxxOnly in
            ret (NamedShape.mk methodName optional
                   (wrapNullable (nullable resolved) fn))
        | _ => throwParserError UnsupportedModuleProperty hasteModuleName
        end
    end in
  match property with
  | TSMethodSignature key optional _ _ => build key optional (Some property)
  | TSPropertySignature key optional value => build key optional value
  | _ => throw TypeError
  end.

Definition isModuleInterface (node : Declaration) : bool :=
  match node with
  | TSInterfaceDeclaration _ [base] _ =>
      String.eqb (heritageType base) "TSExpressionWithTypeArguments"
      && String.eqb (expressionName base) "TurboModule"
  | _ => false
  end.

(** [{...a, ...b}]: the entries of [a] with those of [b] written over them.
    (The union of finite maps keeps its left operand's entry on a shared
    key.) *)
Definition spread {V} (a b : gmap string V) : gmap string V := b ∪ a.

(** The thunk that parses the module name out of the registration call. *)
Definition parseModuleName (hasteModuleName : string) (ast : Ast) : M string :=
  match filter (fun node => isModuleRegistryCall node = true)
          (callExpressions ast) with
  | [] => throwParserError UnusedModuleInterface hasteModuleName
  | _ :: _ :: _ =>
      throwParserError MoreThanOneModuleRegistryCalls hasteModuleName
  | [callExpression] =>
      match arguments callExpression with
      | [argument] =>
          if negb (String.eqb (argumentType argument) "StringLiteral") then
            throwParserError IncorrectModuleRegistryCallArgumentType
              hasteModuleName
          else
            match typeParameters callExpression with
            | None =>
                throwParserError UntypedModuleRegistryCall hasteModuleName
            | Some typeParameters =>
                match typeParametersParams typeParameters with
                | [TSTypeReference typeName _] =>
                    if String.eqb (typeParametersType typeParameters)
                         "TSTypeParameterInstantiation"
                       && String.eqb typeName "Spec"
                    then ret (argumentValue argument)
                    else
                      throwParserError IncorrectModuleRegistryCallTypeParameter
                        hasteModuleName
                | _ =>
                    throwParserError IncorrectModuleRegistryCallTypeParameter
                      hasteModuleName
                end
            end
      | _ =>
          throwParserError IncorrectModuleRegistryCallArity hasteModuleName
      end
  end.

(** The [forEach] over [namesToValidate]: the native-only flag and the
    excluded platforms derived from the platform suffixes. *)
Definition validateName (acc : bool * list string) (name : string)
  : bool * list string :=
  let '(cxxOnly, excludedPlatforms) := acc in
  if endsWith name "Android" then
    (cxxOnly, excludedPlatforms ++ ["iOS"])
  else if endsWith name "IOS" then
    (cxxOnly, excludedPlatforms ++ ["android"])
  else if endsWith name "Cxx" then
    (true, excludedPlatforms ++ ["iOS"; "android"])
  else (cxxOnly, excludedPlatforms).

Definition validateNames (namesToValidate : list string) : bool * list string :=
  foldl validateName (false, []) namesToValidate.

(** The callback of the final [reduce]. *)
Definition reducer (moduleSchema : NativeModuleSchema)
    (parsed : NativeModuleAliasMap * NativeModulePropertyShape)
  : NativeModuleSchema :=
  let '(aliasMap, propertyShape) := parsed in
  {| aliases := spread (aliases moduleSchema) aliasMap;
     properties := properties moduleSchema ++ [propertyShape];
     moduleNames := moduleNames moduleSchema;
     excludedPlatforms := excludedPlatforms moduleSchema |}.

(** The initial value of the final [reduce]. *)
Definition initialSchema (moduleNames excludedPlatforms : list string)
  : NativeModuleSchema :=
  {| aliases := ∅;
     properties := [];
     moduleNames := moduleNames;
     excludedPlatforms :=
       if bool_decide (length excludedPlatforms ≠ 0)
       then Some excludedPlatforms else None |}.

Definition isSignature (property : TSNode) : bool :=
  match property with
  | TSMethodSignature _ _ _ _ | TSPropertySignature _ _ _ => true
  | _ => false
  end.

(** The part of [buildModuleSchema] after the module name is known: the
    suffix conventions, then filter, map and reduce over the members. *)
Definition buildSchemaFromSpec (fuel : nat) (hasteModuleName : string)
    (types : TypeDeclarationMap) (body : list TSNode)
    (tryParse : ParserErrorCapturer) (moduleNames : list string)
  : M NativeModuleSchema :=
  let namesToValidate := moduleNames ++ [hasteModuleName] in
  let '(cxxOnly, excludedPlatforms) := validateNames namesToValidate in
  let* parsed :=
    mapM (fun property =>
            newAliasMap;;
            tryParse _
              (let* propertyShape :=
                 buildPropertySchema fuel hasteModuleName property types
                   tryParse cxxOnly in
               let* aliasMap := getAliasMap in
               ret (aliasMap, propertyShape)))
      (filter (fun property => isSignature property = true) body) in
  ret (foldl reducer (initialSchema moduleNames excludedPlatforms)
         (omap id parsed)).

(** [Object.values(types).filter(isModuleInterface)]. *)
Definition moduleSpecs (types : TypeDeclarationMap) : list Declaration :=
  filter (fun node => isModuleInterface node = true) (map_to_list types).*2.

Definition buildModuleSchema (fuel : nat) (hasteModuleName : string)
    (ast : Ast) (tryParse : ParserErrorCapturer) : M NativeModuleSchema :=
  let types := getTypes ast in
  match moduleSpecs types with
  | [] => throwParserError ModuleInterfaceNotFound hasteModuleName
  | _ :: _ :: _ => throwParserError MoreThanOneModuleInterface hasteModuleName
  | [moduleSpec] =>
      if negb (String.eqb (declarationName moduleSpec) "Spec") then
        throwParserError MisnamedModuleInterface hasteModuleName
      else
        let* moduleName := tryParse _ (parseModuleName hasteModuleName ast) in
        let moduleNames :=
          match moduleName with
          | None => []
          | Some moduleName => [moduleName]
          end in
        match moduleSpec with
        | TSInterfaceDeclaration _ _ body =>
            buildSchemaFromSpec fuel hasteModuleName types body tryParse
              moduleNames
        | _ => throw TypeError
        end
  end.

(** * Vocabulary of the statements *)

(** A parser error of a given class. *)
Definition parserError (k : ParserErrorKind) (hasteModuleName : string)
  : Exception :=
  ParserErr {| kind := k; hasteModuleNameOf := hasteModuleName |}.

(** What a computation never does: abort with a parser error. *)
Definition neverThrowsParserError {A} (m : M A) : Prop :=
  forall s e s', m s <> (Thrown (ParserErr e), s').

(** A computation whose effect on the store always lies within [R]. *)
Definition respects (R : Store -> Store -> Prop) {A} (m : M A) : Prop :=
  forall s, R s (m s).2.

(** The store keeps its captured errors. *)
Definition sameErrors (s s' : Store) : Prop := errors s' = errors s.

(** The store's captured errors are only appended to. *)
Definition moreErrors (s s' : Store) : Prop := errors s `prefix_of` errors s'.

(** The platforms one name excludes, each suffix looked at on its own. *)
Definition excludedBy (name : string) : list string :=
  (if endsWith name "Android" then ["iOS"] else [])
  ++ (if endsWith name "IOS" then ["android"] else [])
  ++ (if endsWith name "Cxx" then ["iOS"; "android"] else []).

(** The names [translateTypeAnnotation] gives a meaning of their own to,
    before it looks a reference up in the type declarations. *)
Definition isBuiltinTypeName (name : string) : bool :=
  bool_decide (name ∈ ["RootTag"; "Promise"; "Array"; "ReadonlyArray";
                       "Stringish"; "Int32"; "Double"; "Float";
                       "UnsafeObject"; "Object"]).

(** [pattern] occurs somewhere in [s]. *)
Fixpoint occursIn (pattern s : string) : bool :=
  String.prefix pattern s
  || match s with
     | EmptyString => false
     | String _ s' => occursIn pattern s'
     end.

(** The thunk [translateFunctionTypeAnnotation] (with fuel [S fuel]) hands
    to [tryParse] for one declared parameter. *)
Definition translateParam (fuel : nat) (hasteModuleName : string)
    (types : TypeDeclarationMap) (tryParse : ParserErrorCapturer)
    (cxxOnly : bool) (typeScriptParam : Param.t TSNode)
  : M NativeModulePropertyShape :=
  match Param.typeAnnotation typeScriptParam with
  | None => throwParserError UnnamedFunctionParam hasteModuleName
  | Some paramType =>
      let* translated :=
        translateTypeAnnotation fuel hasteModuleName paramType types tryParse
          cxxOnly in
      let '(paramTypeAnnotation, isParamTypeAnnotationNullable) :=
        unwrapNullable translated in
      match paramTypeAnnotation with
      | VoidTypeAnnotation
      | PromiseTypeAnnotation =>
          throwParserError UnsupportedFunctionParamTypeAnnotation
            hasteModuleName
      | _ =>
          ret (NamedShape.mk (Param.name typeScriptParam)
                 (Param.optional typeScriptParam)
                 (wrapNullable isParamTypeAnnotationNullable
                    paramTypeAnnotation))
      end
  end.

(** The parameter loop of [translateFunctionTypeAnnotation]. *)
Definition translateParams (fuel : nat) (hasteModuleName : string)
    (types : TypeDeclarationMap) (tryParse : ParserErrorCapturer)
    (cxxOnly : bool) (parameters : list (Param.t TSNode))
  : M (list NativeModulePropertyShape) :=
  let* parsedParams :=
    mapM (fun typeScriptParam =>
            tryParse _
              (translateParam fuel hasteModuleName types tryParse cxxOnly
                 typeScriptParam)) parameters in
  ret (omap id parsedParams).

(** The parameters and the return type of a function-shaped node. *)
Definition functionSignature (node : TSNode)
  : option (list (Param.t TSNode) * option TSNode) :=
  match node with
  | TSFunctionType parameters returnType
  | TSMethodSignature _ _ parameters returnType => Some (parameters, returnType)
  | _ => None
  end.

(** One pass over the declared parameters under the error capturer, from
    store to store: a parameter whose thunk returns is kept, in order; one
    whose thunk throws a parser error is dropped and the error recorded. *)
Inductive ParamsTranslated (thunk : Param.t TSNode -> M NativeModulePropertyShape)
  : list (Param.t TSNode) -> Store -> list NativeModulePropertyShape -> Store
    -> Prop :=
| ParamsTranslated_nil s : ParamsTranslated thunk [] s [] s
| ParamsTranslated_kept typeScriptParam parameters s param s1 params s2 :
    thunk typeScriptParam s = (Returned param, s1) ->
    ParamsTranslated thunk parameters s1 params s2 ->
    ParamsTranslated thunk (typeScriptParam :: parameters) s (param :: params) s2
| ParamsTranslated_dropped typeScriptParam parameters s e s1 params s2 :
    thunk typeScriptParam s = (Thrown (ParserErr e), s1) ->
    ParamsTranslated thunk parameters (pushError e s1) params s2 ->
    ParamsTranslated thunk (typeScriptParam :: parameters) s params s2.

(** The element type of a resolved node that [translateTypeAnnotation]
    treats as an array: [T[]], [readonly T[]], [Array<T>] and
    [ReadonlyArray<T>]. *)
Definition arrayElementType (typeAnnotation : TSNode) : option TSNode :=
  match typeAnnotation with
  | TSArrayType elementType => Some elementType
  | TSTypeOperator operator (TSArrayType elementType) =>
      if String.eqb operator "readonly" then Some elementType else None
  | TSTypeReference name (Some [param]) =>
      if String.eqb name "Array" || String.eqb name "ReadonlyArray"
      then Some param else None
  | _ => None
  end.

(** The element annotations [translateArrayTypeAnnotation] rejects. *)
Definition unsupportedArrayElement (elementType : NativeModuleTypeAnnotation)
  : bool :=
  match elementType with
  | VoidTypeAnnotation | PromiseTypeAnnotation | FunctionTypeAnnotation _ _ =>
      true
  | _ => false
  end.

(** The annotation of a primitive keyword. *)
Definition primitiveKeyword (typeAnnotation : TSNode)
  : option NativeModuleTypeAnnotation :=
  match typeAnnotation with
  | TSBooleanKeyword => Some BooleanTypeAnnotation
  | TSNumberKeyword => Some NumberTypeAnnotation
  | TSVoidKeyword => Some VoidTypeAnnotation
  | TSStringKeyword => Some StringTypeAnnotation
  | _ => None
  end.

(** The resolved nodes no case of [translateTypeAnnotation] names. *)
Definition reachesDefaultCase (typeAnnotation : TSNode) : bool :=
  match typeAnnotation with
  | TSNullKeyword | TSUndefinedKeyword | TSLiteralType _
  | TSPropertySignature _ _ _ | TSMethodSignature _ _ _ _ | TSOtherNode _ =>
      true
  | _ => false
  end.

(** The thunk [translateTypeAnnotation] (with fuel [S fuel]) hands to
    [tryParse] for one member of an object literal. *)
Definition translateObjectMember (fuel : nat) (hasteModuleName : string)
    (types : TypeDeclarationMap) (tryParse : ParserErrorCapturer)
    (cxxOnly : bool) (property : TSNode) : M NativeModulePropertyShape :=
  match property with
  | TSPropertySignature key optional propertyType =>
      match propertyType with
      | None => throw TypeError
      | Some propertyType =>
          let* translated :=
            translateTypeAnnotation fuel hasteModuleName propertyType types
              tryParse cxxOnly in
          let '(propertyTypeAnnotation, isPropertyNullable) :=
            unwrapNullable translated in
          match propertyTypeAnnotation with
          | FunctionTypeAnnotation _ _
          | VoidTypeAnnotation
          | PromiseTypeAnnotation =>
              throwParserError UnsupportedObjectPropertyValueTypeAnnotation
                hasteModuleName
          | _ =>
              ret (NamedShape.mk key optional
                     (wrapNullable isPropertyNullable propertyTypeAnnotation))
          end
      end
  | _ =>
      throwParserError UnsupportedObjectPropertyTypeAnnotation hasteModuleName
  end.

(** [items.map(item => tryParse(() => thunk(item))).filter(Boolean)] under
    the error capturer, from store to store: an item whose thunk returns is
    kept, in order; one whose thunk throws a parser error is dropped and the
    error recorded. *)
Inductive Captured {A B} (thunk : A -> M B)
  : list A -> Store -> list B -> Store -> Prop :=
| Captured_nil s : Captured thunk [] s [] s
| Captured_kept item items s result s1 results s2 :
    thunk item s = (Returned result, s1) ->
    Captured thunk items s1 results s2 ->
    Captured thunk (item :: items) s (result :: results) s2
| Captured_dropped item items s e s1 results s2 :
    thunk item s = (Thrown (ParserErr e), s1) ->
    Captured thunk items (pushError e s1) results s2 ->
    Captured thunk (item :: items) s results s2.

(** The key of a method or property signature. *)
Definition signatureKey (property : TSNode) : string :=
  match property with
  | TSMethodSignature key _ _ _ | TSPropertySignature key _ _ => key
  | _ => ""
  end.

(** The [optional] flag of a method or property signature. *)
Definition signatureOptional (property : TSNode) : bool :=
  match property with
  | TSMethodSignature _ optional _ _ | TSPropertySignature _ optional _ =>
      optional
  | _ => false
  end.

(** The annotations an object literal rejects as the type of a member. *)
Definition unsupportedObjectPropertyValue
    (propertyTypeAnnotation : NativeModuleTypeAnnotation) : bool :=
  match propertyTypeAnnotation with
  | FunctionTypeAnnotation _ _ | VoidTypeAnnotation | PromiseTypeAnnotation =>
      true
  | _ => false
  end.

(** A Function annotation, bare or nullable. *)
Definition isFunctionAnnotation (t : NativeModuleTypeAnnotation) : bool :=
  match t with
  | FunctionTypeAnnotation _ _
  | NullableTypeAnnotation (FunctionTypeAnnotation _ _) => true
  | _ => false
  end.

(** Whatever a computation returns satisfies [P]. *)
Definition returns {A} (P : A -> Prop) (m : M A) : Prop :=
  forall s a s', m s = (Returned a, s') -> P a.

(** The annotation under an optional nullable layer. *)
Definition bare (t : NativeModuleTypeAnnotation) : NativeModuleTypeAnnotation :=
  (unwrapNullable t).1.

(** The annotations the translators may produce in a given mode: nullable
    layers do not nest; an array element is not Void, Promise or Function;
    an object member is not Function, Void or Promise; a parameter is not
    Void or Promise; a function returns a function, and a Union, Mixed or
    Enum annotation occurs, in native-only mode only. *)
Fixpoint legal (cxxOnly : bool) (t : NativeModuleTypeAnnotation) : bool :=
  match t with
  | NullableTypeAnnotation t' =>
      match t' with
      | NullableTypeAnnotation _ => false
      | _ => legal cxxOnly t'
      end
  | ArrayTypeAnnotation None => true
  | ArrayTypeAnnotation (Some elementType) =>
      negb (unsupportedArrayElement (bare elementType))
      && legal cxxOnly elementType
  | ObjectTypeAnnotation properties =>
      forallb
        (fun property =>
           match bare (NamedShape.typeAnnotation property) with
           | FunctionTypeAnnotation _ _ | VoidTypeAnnotation
           | PromiseTypeAnnotation => false
           | _ => legal cxxOnly (NamedShape.typeAnnotation property)
           end) properties
  | FunctionTypeAnnotation returnTypeAnnotation params =>
      match cxxOnly, bare returnTypeAnnotation with
      | false, FunctionTypeAnnotation _ _ => false
      | _, _ => legal cxxOnly returnTypeAnnotation
      end
      && forallb
           (fun param =>
              match bare (NamedShape.typeAnnotation param) with
              | VoidTypeAnnotation | PromiseTypeAnnotation => false
              | _ => legal cxxOnly (NamedShape.typeAnnotation param)
              end) params
  | UnionTypeAnnotation _ | MixedTypeAnnotation | EnumDeclaration _ => cxxOnly
  | _ => true
  end.

(** ** Sample inputs *)

Definition emptyStore : Store := {| aliasMap := ∅; errors := [] |}.

Definition turboModule : Heritage :=
  {| heritageType := "TSExpressionWithTypeArguments";
     expressionName := "TurboModule" |}.

(** [export interface <id> extends TurboModule { <body> }]. *)
Definition moduleInterface (id : string) (body : list TSNode) : Declaration :=
  TSInterfaceDeclaration id [turboModule] body.

(** [TurboModuleRegistry.get<Spec>('<name>')]. *)
Definition registryCall (name : string) : CallExpression :=
  {| callee :=
       CalleeMember
         {| objectType := "Identifier"; objectName := "TurboModuleRegistry";
            propertyType := "Identifier"; propertyName := "get";
            computed := false |};
     arguments := [{| argumentType := "StringLiteral"; argumentValue := name |}];
     typeParameters :=
       Some {| typeParametersType := "TSTypeParameterInstantiation";
               typeParametersParams := [TSTypeReference "Spec" None] |} |}.

(** [f(): void;] *)
Definition voidMethod (name : string) : TSNode :=
  TSMethodSignature name false [] (Some TSVoidKeyword).

(** * Properties *)

(** ** The embedding at work *)

(** [getConstants(): {foo: number}] gives one property shape whose return
    type is the object with the one required member [foo]. *)
Example getConstants_schema :
  (buildModuleSchema 9 "NativeSample"
     {| declarations :=
          [moduleInterface "Spec"
             [TSMethodSignature "getConstants" false []
                (Some (TSTypeLiteral
                         [TSPropertySignature "foo" false
                            (Some TSNumberKeyword)]))]];
        callExpressions := [registryCall "Sample"] |}
     guard emptyStore).1
  = Returned
      {| aliases := ∅;
         properties :=
           [NamedShape.mk "getConstants" false
              (FunctionTypeAnnotation
                 (ObjectTypeAnnotation
                    [NamedShape.mk "foo" false NumberTypeAnnotation])
                 [])];
         moduleNames := ["Sample"];
         excludedPlatforms := None |}.
Proof. vm_compute. reflexivity. Qed.

(** A parameter of a named object type is referred to by name, and the
    object is registered in the aliases; [T | null] is the nullable [T]. *)
Example alias_registration :
  let options :=
    TSTypeAliasDeclaration "Options"
      (TSTypeLiteral [TSPropertySignature "depth" true (Some TSNumberKeyword)]) in
  (buildModuleSchema 9 "NativeSample"
     {| declarations :=
          [options;
           moduleInterface "Spec"
             [TSMethodSignature "open" false
                [Param.mk "options" false
                   (Some (TSUnionType
                            [TSTypeReference "Options" None; TSNullKeyword]))]
                (Some TSVoidKeyword)]];
        callExpressions := [registryCall "Sample"] |}
     guard emptyStore).1
  = Returned
      {| aliases :=
           {["Options" :=
               ObjectTypeAnnotation
                 [NamedShape.mk "depth" true NumberTypeAnnotation]]};
         properties :=
           [NamedShape.mk "open" false
              (FunctionTypeAnnotation VoidTypeAnnotation
                 [NamedShape.mk "options" false
                    (NullableTypeAnnotation
                       (TypeAliasTypeAnnotation "Options"))])];
         moduleNames := ["Sample"];
         excludedPlatforms := None |}.
Proof. vm_compute. reflexivity. Qed.

Lemma wrapNullable_idempotent nullable t :
  wrapNullable nullable (wrapNullable nullable t) = wrapNullable nullable t.
Proof. destruct nullable; [|done]. by destruct t. Qed.

Lemma unwrapNullable_wrapNullable nullable t :
  (forall t', t <> NullableTypeAnnotation t') ->
  unwrapNullable (wrapNullable nullable t) = (t, nullable).
Proof.
  intros H. destruct nullable, t; try reflexivity; exfalso; by eapply H.
Qed.

(** ** The monad *)

Lemma bind_returned {A B} (m : M A) (k : A -> M B) s a s' :
  m s = (Returned a, s') -> bind m k s = k a s'.
Proof. intros H. unfold bind. by rewrite H. Qed.

Lemma bind_thrown {A B} (m : M A) (k : A -> M B) s e s' :
  m s = (Thrown e, s') -> bind m k s = (Thrown e, s').
Proof. intros H. unfold bind. by rewrite H. Qed.

Lemma bind_inv_returned {A B} (m : M A) (k : A -> M B) s b s2 :
  bind m k s = (Returned b, s2) ->
  exists a s1, m s = (Returned a, s1) /\ k a s1 = (Returned b, s2).
Proof.
  unfold bind. destruct (m s) as [[a| |] s1]; intros H; try discriminate.
  by exists a, s1.
Qed.

Lemma guard_neverThrowsParserError T (fn : M T) :
  neverThrowsParserError (guard T fn).
Proof.
  intros s e s'. unfold guard.
  destruct (fn s) as [[r|[]|] s1]; congruence.
Qed.

Lemma bind_neverThrowsParserError {A B} (m : M A) (k : A -> M B) :
  neverThrowsParserError m -> (forall a, neverThrowsParserError (k a)) ->
  neverThrowsParserError (bind m k).
Proof.
  intros Hm Hk s e s'. unfold bind.
  destruct (m s) as [[a|e1|] s1] eqn:E.
  - apply Hk.
  - intros [= -> ->]. by eapply Hm.
  - congruence.
Qed.

Lemma ret_neverThrowsParserError {A} (a : A) : neverThrowsParserError (ret a).
Proof. intros s e s'. unfold ret. congruence. Qed.

Lemma mapM_neverThrowsParserError {A B} (f : A -> M B) l :
  (forall x, neverThrowsParserError (f x)) ->
  neverThrowsParserError (mapM f l).
Proof.
  intros Hf. induction l as [|x l IH]; simpl.
  - apply ret_neverThrowsParserError.
  - apply bind_neverThrowsParserError; [apply Hf|]. intros y.
    apply bind_neverThrowsParserError; [apply IH|]. intros ys.
    apply ret_neverThrowsParserError.
Qed.

(** ** The final reduce *)

Lemma lookup_spread {V} (a b : gmap string V) k :
  spread a b !! k = match b !! k with Some v => Some v | None => a !! k end.
Proof.
  unfold spread. rewrite lookup_union.
  destruct (b !! k), (a !! k); reflexivity.
Qed.

Lemma foldl_reducer_snoc init pairs parsed :
  foldl reducer init (pairs ++ [parsed])
  = reducer (foldl reducer init pairs) parsed.
Proof. by rewrite foldl_app. Qed.

Lemma foldl_reducer_moduleNames init pairs :
  moduleNames (foldl reducer init pairs) = moduleNames init.
Proof.
  revert init. induction pairs as [|[m p] pairs IH]; intros init; simpl;
    [done|]. by rewrite IH.
Qed.

Lemma foldl_reducer_excludedPlatforms init pairs :
  excludedPlatforms (foldl reducer init pairs) = excludedPlatforms init.
Proof.
  revert init. induction pairs as [|[m p] pairs IH]; intros init; simpl;
    [done|]. by rewrite IH.
Qed.

Lemma foldl_reducer_properties init pairs :
  properties (foldl reducer init pairs) = properties init ++ pairs.*2.
Proof.
  revert init. induction pairs as [|[m p] pairs IH]; intros init; simpl.
  - by rewrite app_nil_r.
  - rewrite IH. simpl. by rewrite <- app_assoc.
Qed.





(** ** Module discovery *)




(** ** Platform suffixes *)

Lemma prefix_same_head c1 p1 c2 p2 t :
  String.prefix (String c1 p1) t = true ->
  String.prefix (String c2 p2) t = true -> c1 = c2.
Proof.
  destruct t as [|c t]; simpl; [discriminate|].
  destruct (Ascii.ascii_dec c1 c), (Ascii.ascii_dec c2 c); congruence.
Qed.

(** No name ends in two of the three platform suffixes. *)
Lemma platform_suffixes_exclusive name :
  (endsWith name "Android" = true -> endsWith name "IOS" = false
                                     /\ endsWith name "Cxx" = false)
  /\ (endsWith name "IOS" = true -> endsWith name "Cxx" = false).
Proof.
  unfold endsWith.
  change (String.rev "Android") with "diordnA".
  change (String.rev "IOS") with "SOI".
  change (String.rev "Cxx") with "xxC".
  split.
  - intros H. split.
    + destruct (String.prefix "SOI" (String.rev name)) eqn:E; [|done].
      by pose proof (prefix_same_head _ _ _ _ _ H E).
    + destruct (String.prefix "xxC" (String.rev name)) eqn:E; [|done].
      by pose proof (prefix_same_head _ _ _ _ _ H E).
  - intros H.
    destruct (String.prefix "xxC" (String.rev name)) eqn:E; [|done].
    by pose proof (prefix_same_head _ _ _ _ _ H E).
Qed.

Lemma validateName_spec cxxOnly excluded name :
  validateName (cxxOnly, excluded) name
  = (cxxOnly || endsWith name "Cxx", excluded ++ excludedBy name).
Proof.
  unfold validateName, excludedBy.
  destruct (platform_suffixes_exclusive name) as [HA HI].
  destruct (endsWith name "Android") eqn:EA.
  - destruct (HA eq_refl) as [-> ->]. by rewrite orb_false_r.
  - destruct (endsWith name "IOS") eqn:EI.
    + rewrite (HI eq_refl). by rewrite orb_false_r.
    + destruct (endsWith name "Cxx"); simpl.
      * by rewrite orb_true_r.
      * by rewrite orb_false_r, app_nil_r.
Qed.

Lemma foldl_validateName cxxOnly excluded names :
  foldl validateName (cxxOnly, excluded) names
  = (cxxOnly || existsb (fun name => endsWith name "Cxx") names,
     excluded ++ flat_map excludedBy names).
Proof.
  revert cxxOnly excluded.
  induction names as [|name names IH]; intros cxxOnly excluded;
    cbn [foldl existsb flat_map].
  - by rewrite orb_false_r, app_nil_r.
  - rewrite validateName_spec, IH. by rewrite orb_assoc, <- app_assoc.
Qed.

Lemma validateNames_spec names :
  validateNames names
  = (existsb (fun name => endsWith name "Cxx") names,
     flat_map excludedBy names).
Proof. unfold validateNames. by rewrite foldl_validateName. Qed.

(** ** What a returned schema was built from *)

Lemma buildSchemaFromSpec_returned fuel hasteModuleName types body tryParse
    names s schema s' :
  buildSchemaFromSpec fuel hasteModuleName types body tryParse names s
  = (Returned schema, s') ->
  moduleNames schema = names
  /\ excludedPlatforms schema
     = let excluded := (validateNames (names ++ [hasteModuleName])).2 in
       if bool_decide (length excluded ≠ 0) then Some excluded else None.
Proof.
  unfold buildSchemaFromSpec.
  destruct (validateNames (names ++ [hasteModuleName])) as [cxxOnly excluded].
  intros (parsed & s1 & _ & [= <- _])%bind_inv_returned.
  by rewrite foldl_reducer_moduleNames, foldl_reducer_excludedPlatforms.
Qed.

(** A returned schema is the reduce of the parsed members, from the
    initial schema of the module names and excluded platforms. *)
Lemma buildSchemaFromSpec_reduces fuel hasteModuleName types body tryParse
    names s schema s' :
  buildSchemaFromSpec fuel hasteModuleName types body tryParse names s
  = (Returned schema, s') ->
  exists parsed,
    schema
    = foldl reducer
        (initialSchema names (validateNames (names ++ [hasteModuleName])).2)
        parsed.
Proof.
  unfold buildSchemaFromSpec.
  destruct (validateNames (names ++ [hasteModuleName])) as [cxxOnly excluded].
  intros (parsed & s1 & _ & [= <- _])%bind_inv_returned.
  by exists (omap id parsed).
Qed.

Lemma buildModuleSchema_returned fuel hasteModuleName ast tryParse s schema s' :
  buildModuleSchema fuel hasteModuleName ast tryParse s = (Returned schema, s') ->
  exists extends body moduleName s1,
    moduleSpecs (getTypes ast) = [TSInterfaceDeclaration "Spec" extends body]
    /\ tryParse _ (parseModuleName hasteModuleName ast) s
       = (Returned moduleName, s1)
    /\ buildSchemaFromSpec fuel hasteModuleName (getTypes ast) body tryParse
         (match moduleName with None => [] | Some name => [name] end) s1
       = (Returned schema, s').
Proof.
  unfold buildModuleSchema.
  destruct (moduleSpecs (getTypes ast)) as [|moduleSpec [|? ?]];
    try discriminate.
  destruct (String.eqb_spec (declarationName moduleSpec) "Spec") as [Hname|];
    simpl; [|discriminate].
  intros (moduleName & s1 & Hparse & Hbuild)%bind_inv_returned.
  destruct moduleSpec as [id extends body| |]; try discriminate.
  simpl in Hname. subst id. by exists extends, body, moduleName, s1.
Qed.



(** ** Effects on the store *)

Section StoreInvariant.
Context (R : Store -> Store -> Prop) `{!Reflexive R, !Transitive R}.
Hypothesis R_aliasMap :
  forall s am, R s {| aliasMap := am; errors := errors s |}.

Lemma respects_ret {A} (a : A) : respects R (ret a).
Proof. intros s. reflexivity. Qed.

Lemma respects_throw {A} e : respects R (@throw A e).
Proof. intros s. reflexivity. Qed.

Lemma respects_throwParserError {A} k name :
  respects R (@throwParserError A k name).
Proof. apply respects_throw. Qed.

Lemma respects_diverge {A} : respects R (@diverge A).
Proof. intros s. reflexivity. Qed.

Lemma respects_liftOutcome {A} (o : Outcome A) : respects R (liftOutcome o).
Proof. intros s. reflexivity. Qed.

Lemma respects_setAlias name t : respects R (setAlias name t).
Proof. intros s. apply R_aliasMap. Qed.

Lemma respects_newAliasMap : respects R newAliasMap.
Proof. intros s. apply R_aliasMap. Qed.

Lemma respects_getAliasMap : respects R getAliasMap.
Proof. intros s. reflexivity. Qed.

Lemma respects_bind {A B} (m : M A) (k : A -> M B) :
  respects R m -> (forall a, respects R (k a)) -> respects R (bind m k).
Proof.
  intros Hm Hk s. unfold bind. specialize (Hm s).
  destruct (m s) as [[a|e|] s1]; simpl in *; [|done..].
  etrans; [exact Hm|apply Hk].
Qed.

Lemma respects_tryCatch {A} (body : M A) handler :
  respects R body -> (forall e, respects R (handler e)) ->
  respects R (tryCatch body handler).
Proof.
  intros Hb Hh s. unfold tryCatch. specialize (Hb s).
  destruct (body s) as [[a|e|] s1]; simpl in *; [done| |done].
  etrans; [exact Hb|apply Hh].
Qed.

Lemma respects_mapM {A B} (f : A -> M B) l :
  (forall x, respects R (f x)) -> respects R (mapM f l).
Proof.
  intros Hf. induction l as [|x l IH]; simpl; [apply respects_ret|].
  apply respects_bind; [apply Hf|]. intros y.
  apply respects_bind; [apply IH|]. intros ys. apply respects_ret.
Qed.

Lemma respects_nullGuard T (fn : M T) :
  respects R fn -> respects R (nullGuard T fn).
Proof.
  intros H. apply respects_bind; [done|]. intros r. apply respects_ret.
Qed.

Lemma respects_assertOneTypeParameter name typeParameters :
  respects R
    (assertGenericTypeAnnotationHasExactlyOneTypeParameter name typeParameters).
Proof.
  destruct typeParameters as [[|? [|? ?]]|]; simpl;
    first [apply respects_ret | apply respects_throwParserError].
Qed.

Lemma respects_emitPromise name typeParameters nullable :
  respects R (emitPromise name typeParameters nullable).
Proof.
  apply respects_bind; [apply respects_assertOneTypeParameter|].
  intros _. apply respects_ret.
Qed.

Lemma respects_typeAliasResolution status t nullable :
  respects R (typeAliasResolution status t nullable).
Proof.
  destruct status; simpl; [|apply respects_ret].
  apply respects_bind; [apply respects_setAlias|]. intros _. apply respects_ret.
Qed.

Ltac respects_step :=
  first
    [ apply respects_ret
    | apply respects_throwParserError
    | apply respects_throw
    | apply respects_diverge
    | apply respects_liftOutcome
    | apply respects_emitPromise
    | apply respects_assertOneTypeParameter
    | apply respects_typeAliasResolution
    | apply respects_getAliasMap
    | apply respects_newAliasMap
    | apply respects_nullGuard
    | match goal with
      | H : forall T fn, respects R fn -> respects R (?tp T fn)
        |- respects R (?tp _ _) => apply H
      end
    | apply respects_bind; [|intros ?]
    | apply respects_tryCatch; [|intros ?]
    | apply respects_mapM; intros ?
    | progress auto
    | case_match ].

(** The three translators stay within [R] under every capturer that
    does. *)
Lemma translators_respect fuel :
  forall tryParse : ParserErrorCapturer,
    (forall T (fn : M T), respects R fn -> respects R (tryParse T fn)) ->
    (forall name node types cxxOnly,
       respects R (translateTypeAnnotation fuel name node types tryParse cxxOnly))
    /\ (forall name types cxxOnly kind node nullable,
          respects R
            (translateArrayTypeAnnotation fuel name types cxxOnly kind node
               nullable))
    /\ (forall name node types cxxOnly,
          respects R
            (translateFunctionTypeAnnotation fuel name node types tryParse
               cxxOnly)).
Proof.
  induction fuel as [|fuel IH]; intros tryParse HtryParse.
  - repeat split; intros; apply respects_diverge.
  - destruct (IH tryParse HtryParse) as (IHt & IHa & IHf).
    destruct (IH nullGuard respects_nullGuard) as (IHn & _ & _).
    split; [|split]; intros; simpl; repeat respects_step.
Qed.

Lemma buildPropertySchema_respects fuel name property types
    (tryParse : ParserErrorCapturer) cxxOnly :
  (forall T (fn : M T), respects R fn -> respects R (tryParse T fn)) ->
  respects R (buildPropertySchema fuel name property types tryParse cxxOnly).
Proof.
  intros HtryParse.
  destruct (translators_respect fuel tryParse HtryParse) as (_ & _ & Hf).
  unfold buildPropertySchema. repeat respects_step.
Qed.

Lemma buildSchemaFromSpec_respects fuel name types body
    (tryParse : ParserErrorCapturer) names :
  (forall T (fn : M T), respects R fn -> respects R (tryParse T fn)) ->
  respects R (buildSchemaFromSpec fuel name types body tryParse names).
Proof.
  intros HtryParse.
  pose proof (fun property cxxOnly =>
    buildPropertySchema_respects fuel name property types tryParse cxxOnly
      HtryParse) as Hp.
  unfold buildSchemaFromSpec. repeat respects_step.
Qed.

End StoreInvariant.

#[local] Instance sameErrors_reflexive : Reflexive sameErrors.
Proof. by intros s. Qed.

#[local] Instance sameErrors_transitive : Transitive sameErrors.
Proof. unfold sameErrors. intros s1 s2 s3 H12 H23. congruence. Qed.

#[local] Instance moreErrors_reflexive : Reflexive moreErrors.
Proof. intros s. unfold moreErrors. reflexivity. Qed.

#[local] Instance moreErrors_transitive : Transitive moreErrors.
Proof.
  unfold moreErrors. intros s1 s2 s3 H12 H23.
  transitivity (errors s2); assumption.
Qed.

Lemma guard_moreErrors T (fn : M T) :
  respects moreErrors fn -> respects moreErrors (guard T fn).
Proof.
  intros H s. specialize (H s). unfold guard.
  destruct (fn s) as [[r|[e| |]|] s1]; simpl in *; try done.
  unfold moreErrors in *. simpl. etrans; [exact H|]. by apply prefix_app_r.
Qed.

(** ** The registration call *)

Lemma parseModuleName_outcome hasteModuleName ast s :
  exists o, parseModuleName hasteModuleName ast s = (o, s)
    /\ forall e, o = Thrown e ->
         exists k, e = parserError k hasteModuleName
           /\ k ∈ [UnusedModuleInterface; MoreThanOneModuleRegistryCalls;
                   UntypedModuleRegistryCall;
                   IncorrectModuleRegistryCallTypeParameter;
                   IncorrectModuleRegistryCallArity;
                   IncorrectModuleRegistryCallArgumentType].
Proof.
  unfold parseModuleName.
  repeat case_match; eexists; (split; [reflexivity|]); intros e' [= <-];
    eexists; (split; [reflexivity|]); apply list_elem_of_In; simpl; auto 10.
Qed.

Lemma buildSchemaFromSpec_guard_neverThrowsParserError fuel name types body
    names :
  neverThrowsParserError (buildSchemaFromSpec fuel name types body guard names).
Proof.
  unfold buildSchemaFromSpec. case_match.
  apply bind_neverThrowsParserError; [|intros; apply ret_neverThrowsParserError].
  apply mapM_neverThrowsParserError. intros property.
  apply bind_neverThrowsParserError.
  - intros s e s'. unfold newAliasMap. congruence.
  - intros _. apply guard_neverThrowsParserError.
Qed.

(** C2 (as stated, refuted): a file whose interface is never registered,
    and one that registers it twice, still get a schema from
    [buildModuleSchema]; the fault is in the captured errors and
    [moduleNames] is empty. *)
Lemma unregistered_module_still_gets_a_schema :
  let spec := moduleInterface "Spec" [voidMethod "f"] in
  let schema :=
    {| aliases := ∅;
       properties :=
         [NamedShape.mk "f" false (FunctionTypeAnnotation VoidTypeAnnotation [])];
       moduleNames := [];
       excludedPlatforms := None |} in
  buildModuleSchema 5 "NativeSample"
    {| declarations := [spec]; callExpressions := [] |} guard emptyStore
  = (Returned schema,
     {| aliasMap := ∅;
        errors := [{| kind := UnusedModuleInterface;
                      hasteModuleNameOf := "NativeSample" |}] |})
  /\ buildModuleSchema 5 "NativeSample"
       {| declarations := [spec];
          callExpressions := [registryCall "Sample"; registryCall "Sample"] |}
       guard emptyStore
     = (Returned schema,
        {| aliasMap := ∅;
           errors := [{| kind := MoreThanOneModuleRegistryCalls;
                         hasteModuleNameOf := "NativeSample" |}] |}).
Proof. split; vm_compute; reflexivity. Qed.

(** C2 (amended): the registration-call faults are raised inside the error
    capturer.  With no registration call the fault is
    [UnusedModuleInterface], with several it is
    [MoreThanOneModuleRegistryCalls]; whichever registration fault is
    raised, it is appended to the captured errors and [buildModuleSchema]
    goes on to build the schema from the interface members with an empty
    [moduleNames]: it never aborts with a parser error. *)
Theorem registration_faults_are_captured fuel hasteModuleName ast s extends
    body :
  moduleSpecs (getTypes ast) = [TSInterfaceDeclaration "Spec" extends body] ->
  let calls :=
    filter (fun node => isModuleRegistryCall node = true) (callExpressions ast) in
  let run := buildModuleSchema fuel hasteModuleName ast guard s in
  (length calls = 0 ->
   parseModuleName hasteModuleName ast s
   = (Thrown (parserError UnusedModuleInterface hasteModuleName), s))
  /\ (1 < length calls ->
      parseModuleName hasteModuleName ast s
      = (Thrown (parserError MoreThanOneModuleRegistryCalls hasteModuleName), s))
  /\ (forall e s1,
        parseModuleName hasteModuleName ast s = (Thrown (ParserErr e), s1) ->
        kind e ∈ [UnusedModuleInterface; MoreThanOneModuleRegistryCalls;
                  UntypedModuleRegistryCall;
                  IncorrectModuleRegistryCallTypeParameter;
                  IncorrectModuleRegistryCallArity;
                  IncorrectModuleRegistryCallArgumentType]
        /\ run = buildSchemaFromSpec fuel hasteModuleName (getTypes ast) body
                   guard [] (pushError e s)
        /\ (forall e' s', run <> (Thrown (ParserErr e'), s'))
        /\ (forall schema s',
              run = (Returned schema, s') ->
              moduleNames schema = [] /\ e ∈ errors s')).
Proof.
  intros Hspec calls run. split; [|split].
  - intros Hlen. unfold parseModuleName. fold calls. by destruct calls.
  - intros Hlen. unfold parseModuleName. fold calls.
    destruct calls as [|? [|? ?]]; simpl in Hlen; [lia|lia|done].
  - intros e s1 Hparse.
    destruct (parseModuleName_outcome hasteModuleName ast s) as (o & Ho & Hk).
    rewrite Ho in Hparse. injection Hparse as -> <-.
    split.
    { destruct (Hk _ eq_refl) as (k & [= ->] & Hin). exact Hin. }
    assert (Hrun : run = buildSchemaFromSpec fuel hasteModuleName (getTypes ast)
                           body guard [] (pushError e s)).
    { subst run. unfold buildModuleSchema. rewrite Hspec. simpl.
      unfold bind at 1. unfold guard at 1. by rewrite Ho. }
    split; [exact Hrun|]. rewrite Hrun. split.
    + intros e' s'.
      apply buildSchemaFromSpec_guard_neverThrowsParserError.
    + intros schema s' Hret. split.
      * by apply buildSchemaFromSpec_returned in Hret as [-> _].
      * pose proof (buildSchemaFromSpec_respects moreErrors
                      (fun s am => reflexivity _) fuel hasteModuleName
                      (getTypes ast) body guard [] guard_moreErrors
                      (pushError e s)) as Hmore.
        rewrite Hret in Hmore. unfold moreErrors in Hmore. simpl in Hmore.
        eapply elem_of_prefix; [|exact Hmore].
        apply elem_of_app. right. by apply list_elem_of_singleton.
Qed.

Lemma registration_faults_are_captured_witness :
  let ast := {| declarations := [moduleInterface "Spec" [voidMethod "f"]];
                callExpressions := [] |} in
  parseModuleName "NativeSample" ast emptyStore
  = (Thrown (parserError UnusedModuleInterface "NativeSample"), emptyStore)
  /\ moduleNames
       {| aliases := ∅;
          properties :=
            [NamedShape.mk "f" false
               (FunctionTypeAnnotation VoidTypeAnnotation [])];
          moduleNames := [];
          excludedPlatforms := None |} = []
  /\ {| kind := UnusedModuleInterface; hasteModuleNameOf := "NativeSample" |}
     ∈ [{| kind := UnusedModuleInterface; hasteModuleNameOf := "NativeSample" |}].
Proof.
  intros ast.
  pose proof (registration_faults_are_captured 5 "NativeSample" ast emptyStore
                [turboModule] [voidMethod "f"] eq_refl) as (H0 & _ & Hcap).
  split; [exact (H0 eq_refl)|].
  destruct (Hcap _ _ (H0 eq_refl)) as (_ & _ & _ & Hret).
  apply (Hret _ {| aliasMap := ∅;
                   errors := [{| kind := UnusedModuleInterface;
                                 hasteModuleNameOf := "NativeSample" |}] |}).
  vm_compute. reflexivity.
Defined.

(** ** Unions *)

Lemma replace_unfold pattern replacement s :
  replace pattern replacement s
  = if String.prefix pattern s then
      replacement +:+
        String.substring (String.length pattern)
          (String.length s - String.length pattern) s
    else
      match s with
      | EmptyString => EmptyString
      | String c s' => String c (replace pattern replacement s')
      end.
Proof. by destruct s. Qed.

Lemma occursIn_unfold pattern s :
  occursIn pattern s
  = String.prefix pattern s
    || match s with
       | EmptyString => false
       | String _ s' => occursIn pattern s'
       end.
Proof. by destruct s. Qed.

Lemma replace_not_occurring pattern replacement s :
  occursIn pattern s = false -> replace pattern replacement s = s.
Proof.
  induction s as [|c s IH]; rewrite occursIn_unfold, replace_unfold;
    intros [-> Hs]%orb_false_iff; [done|].
  by rewrite IH.
Qed.






(** C4 (as stated, refuted): with native-only mode off the union [1 | 2]
    is rejected with [UnsupportedTypeAnnotation], the error of the default
    case, not with [UnsupportedUnionTypeAnnotation]; a method taking such a
    parameter records that error. *)
Lemma non_native_union_fault_kind :
  let union :=
    TSUnionType [TSLiteralType "NumericLiteral"; TSLiteralType "NumericLiteral"] in
  translateTypeAnnotation 5 "NativeSample" union ∅ guard false emptyStore
  = (Thrown (parserError UnsupportedTypeAnnotation "NativeSample"), emptyStore)
  /\ errors
       (buildModuleSchema 5 "NativeSample"
          {| declarations :=
               [moduleInterface "Spec"
                  [TSMethodSignature "f" false
                     [Param.mk "x" false (Some union)] (Some TSVoidKeyword)]];
             callExpressions := [registryCall "Sample"] |}
          guard emptyStore).2
     = [{| kind := UnsupportedTypeAnnotation;
           hasteModuleNameOf := "NativeSample" |}]
  /\ UnsupportedTypeAnnotation <> UnsupportedUnionTypeAnnotation.
Proof. split; [|split]; [vm_compute; reflexivity..|discriminate]. Qed.

(** C4 (amended): with native-only mode off, a node that resolves to a
    union is rejected whatever its members, by falling through to the
    default case: the error thrown is [UnsupportedTypeAnnotation], and the
    store is left as it was. *)
Theorem non_native_union_is_rejected fuel hasteModuleName node types
    tryParse s resolved members :
  resolveTypeAnnotation fuel node types = Returned resolved ->
  typeAnnotation resolved = TSUnionType members ->
  translateTypeAnnotation (S fuel) hasteModuleName node types tryParse false s
  = (Thrown (parserError UnsupportedTypeAnnotation hasteModuleName), s).
Proof.
  intros Hresolve Hunion. simpl. unfold bind, liftOutcome.
  by rewrite Hresolve, Hunion.
Qed.

Lemma non_native_union_is_rejected_witness :
  translateTypeAnnotation 2 "NativeSample"
    (TSUnionType [TSStringKeyword; TSNumberKeyword]) ∅ guard false emptyStore
  = (Thrown (parserError UnsupportedTypeAnnotation "NativeSample"), emptyStore).
Proof.
  apply (non_native_union_is_rejected 1 "NativeSample" _ ∅ guard emptyStore
           {| nullable := false;
              typeAnnotation := TSUnionType [TSStringKeyword; TSNumberKeyword];
              typeAliasResolutionStatus := None |}
           [TSStringKeyword; TSNumberKeyword]);
    reflexivity.
Defined.




(** ** Enum references *)

Lemma translateArrayTypeAnnotation_never_throws fuel name types cxxOnly kind
    node nullable s e s' :
  translateArrayTypeAnnotation fuel name types cxxOnly kind node nullable s
  <> (Thrown e, s').
Proof.
  destruct fuel as [|fuel]; simpl; [unfold diverge; congruence|].
  unfold tryCatch.
  match goal with |- context [match ?body s with _ => _ end] =>
    destruct (body s) as [[a|e1|] s1] end;
    unfold ret; congruence.
Qed.

Lemma not_builtin_type_name name :
  isBuiltinTypeName name = false ->
  String.eqb name "RootTag" = false /\ String.eqb name "Promise" = false
  /\ String.eqb name "Array" = false /\ String.eqb name "ReadonlyArray" = false
  /\ String.eqb name "Stringish" = false /\ String.eqb name "Int32" = false
  /\ String.eqb name "Double" = false /\ String.eqb name "Float" = false
  /\ String.eqb name "UnsafeObject" = false /\ String.eqb name "Object" = false.
Proof.
  intros H. apply bool_decide_eq_false in H.
  repeat split; apply String.eqb_neq; intros ->; apply H;
    apply list_elem_of_In; simpl; auto 12.
Qed.

(** C10 (as stated, refuted): an enum may bear the name of a built-in
    type.  In native-only mode the reference [Float] to
    [enum Float { A }] resolves to that enum declaration, and is translated
    to the Float annotation, not to an Enum annotation. *)
Lemma enum_named_like_a_builtin_type :
  let types : TypeDeclarationMap :=
    {["Float" := TSEnumDeclaration "Float" [{| initializer := None |}]]} in
  resolveTypeAnnotation 4 (TSTypeReference "Float" None) types
  = Returned {| nullable := false;
                typeAnnotation := TSTypeReference "Float" None;
                typeAliasResolutionStatus := Some "Float" |}
  /\ translateTypeAnnotation 5 "NativeSampleCxx" (TSTypeReference "Float" None)
       types guard true emptyStore
     = (Returned FloatTypeAnnotation, emptyStore)
  /\ FloatTypeAnnotation <> EnumDeclaration "StringTypeAnnotation".
Proof. split; [|split]; [vm_compute; reflexivity..|discriminate]. Qed.

(** C10 (amended): in native-only mode, a named reference that resolves to
    an enum declaration whose name is not one of the built-in type names
    and whose first member has no initializer is translated, without any
    fault, to the Enum annotation of String member kind.  For a reference
    that resolves to an enum declaration, [UnsupportedEnumDeclaration] is
    thrown only when the first member has an initializer that is neither a
    numeric nor a string literal. *)
Theorem enum_reference_translation fuel hasteModuleName node types tryParse s
    resolved name typeParameters id member members :
  resolveTypeAnnotation fuel node types = Returned resolved ->
  typeAnnotation resolved = TSTypeReference name typeParameters ->
  types !! name = Some (TSEnumDeclaration id (member :: members)) ->
  let run :=
    translateTypeAnnotation (S fuel) hasteModuleName node types tryParse true s in
  (isBuiltinTypeName name = false -> initializer member = None ->
   run = (Returned (wrapNullable (nullable resolved)
                      (EnumDeclaration "StringTypeAnnotation")), s))
  /\ (forall s',
        run = (Thrown (parserError UnsupportedEnumDeclaration hasteModuleName),
               s') ->
        exists type,
          initializer member = Some type
          /\ type <> "NumericLiteral" /\ type <> "StringLiteral").
Proof.
  intros Hresolve Hreference Htypes run. subst run.
  split; simpl; unfold bind at 1; unfold liftOutcome;
    rewrite Hresolve, Hreference.
  - intros (-> & -> & -> & -> & -> & -> & -> & -> & -> & ->)
      %not_builtin_type_name Hnone.
    simpl. by rewrite Htypes, Hnone.
  - intros s'. unfold ret, throwParserError, throw.
    destruct (String.eqb name "RootTag"); [discriminate|].
    destruct (String.eqb name "Promise").
    { unfold emitPromise, bind.
      destruct typeParameters as [[|? [|? ?]]|]; discriminate. }
    destruct (String.eqb name "Array" || String.eqb name "ReadonlyArray").
    { unfold bind.
      destruct typeParameters as [[|? [|? ?]]|]; simpl; try discriminate.
      intros H. by apply translateArrayTypeAnnotation_never_throws in H. }
    destruct (String.eqb name "Stringish"); [discriminate|].
    destruct (String.eqb name "Int32"); [discriminate|].
    destruct (String.eqb name "Double"); [discriminate|].
    destruct (String.eqb name "Float"); [discriminate|].
    destruct (String.eqb name "UnsafeObject" || String.eqb name "Object");
      [discriminate|].
    rewrite Htypes.
    destruct (initializer member) as [type|]; [|discriminate].
    intros Hrun. exists type. split; [done|].
    split; intros ->; vm_compute in Hrun; discriminate.
Qed.

Lemma enum_reference_translation_witness :
  let types : TypeDeclarationMap :=
    {["Status" := TSEnumDeclaration "Status" [{| initializer := None |}]]} in
  translateTypeAnnotation 2 "NativeSampleCxx" (TSTypeReference "Status" None)
    types guard true emptyStore
  = (Returned (EnumDeclaration "StringTypeAnnotation"), emptyStore).
Proof.
  intros types.
  apply (proj1 (enum_reference_translation 1 "NativeSampleCxx"
                  (TSTypeReference "Status" None) types guard emptyStore
                  {| nullable := false;
                     typeAnnotation := TSTypeReference "Status" None;
                     typeAliasResolutionStatus := Some "Status" |}
                  "Status" None "Status" {| initializer := None |} []
                  eq_refl eq_refl eq_refl));
    reflexivity.
Defined.

(** ** Function signatures *)

Lemma translateFunctionTypeAnnotation_unfold fuel name node types tryParse
    cxxOnly s :
  translateFunctionTypeAnnotation (S fuel) name node types tryParse cxxOnly s
  = match functionSignature node with
    | None => throw TypeError s
    | Some (parameters, returnType) =>
        bind (translateParams fuel name types tryParse cxxOnly parameters)
          (fun params =>
             match returnType with
             | None => throw TypeError
             | Some returnType =>
                 let* translated :=
                   translateTypeAnnotation fuel name returnType types tryParse
                     cxxOnly in
                 let '(returnTypeAnnotation, isReturnTypeAnnotationNullable) :=
                   unwrapNullable translated in
                 match cxxOnly, returnTypeAnnotation with
                 | false, FunctionTypeAnnotation _ _ =>
                     throwParserError UnsupportedFunctionReturnTypeAnnotation
                       name
                 | _, _ =>
                     ret (FunctionTypeAnnotation
                            (wrapNullable isReturnTypeAnnotationNullable
                               returnTypeAnnotation)
                            params)
                 end
             end) s
    end.
Proof.
  destruct node; try reflexivity; simpl;
    unfold translateParams, translateParam, bind;
    match goal with |- context [mapM ?f ?l s] =>
      destruct (mapM f l s) as [[parsed|e|] s1] end;
    reflexivity.
Qed.

(** C7: once the parameters are through and the return type has been
    translated to a Function annotation, [translateFunctionTypeAnnotation]
    returns the signature when native-only mode is on and throws
    [UnsupportedFunctionReturnTypeAnnotation] when it is off. *)
Theorem function_return_needs_native_only fuel hasteModuleName node
    parameters returnType types tryParse cxxOnly s params s1 translated s2
    returns takes isNullable :
  functionSignature node = Some (parameters, Some returnType) ->
  translateParams fuel hasteModuleName types tryParse cxxOnly parameters s
  = (Returned params, s1) ->
  translateTypeAnnotation fuel hasteModuleName returnType types tryParse
    cxxOnly s1
  = (Returned translated, s2) ->
  unwrapNullable translated = (FunctionTypeAnnotation returns takes, isNullable) ->
  translateFunctionTypeAnnotation (S fuel) hasteModuleName node types tryParse
    cxxOnly s
  = if cxxOnly then
      (Returned
         (FunctionTypeAnnotation
            (wrapNullable isNullable (FunctionTypeAnnotation returns takes))
            params), s2)
    else
      (Thrown (parserError UnsupportedFunctionReturnTypeAnnotation
                 hasteModuleName), s2).
Proof.
  intros Hsignature Hparams Hreturn Hfunction.
  rewrite translateFunctionTypeAnnotation_unfold, Hsignature.
  rewrite (bind_returned _ _ _ _ _ Hparams).
  rewrite (bind_returned _ _ _ _ _ Hreturn).
  rewrite Hfunction. by destruct cxxOnly.
Qed.

Lemma function_return_needs_native_only_witness :
  let callback := TSFunctionType [] (Some TSVoidKeyword) in
  let getter := TSFunctionType [] (Some callback) in
  translateFunctionTypeAnnotation 6 "NativeSample" getter ∅ guard false
    emptyStore
  = (Thrown (parserError UnsupportedFunctionReturnTypeAnnotation
               "NativeSample"), emptyStore)
  /\ translateFunctionTypeAnnotation 6 "NativeSampleCxx" getter ∅ guard true
       emptyStore
     = (Returned
          (FunctionTypeAnnotation
             (FunctionTypeAnnotation VoidTypeAnnotation []) []), emptyStore).
Proof.
  intros callback getter. split.
  - apply (function_return_needs_native_only 5 "NativeSample" getter []
             callback ∅ guard false emptyStore [] emptyStore
             (FunctionTypeAnnotation VoidTypeAnnotation []) emptyStore
             VoidTypeAnnotation [] false);
      reflexivity.
  - apply (function_return_needs_native_only 5 "NativeSampleCxx" getter []
             callback ∅ guard true emptyStore [] emptyStore
             (FunctionTypeAnnotation VoidTypeAnnotation []) emptyStore
             VoidTypeAnnotation [] false);
      reflexivity.
Defined.

(** Under the error capturer, the parameter loop returns exactly when each
    thunk returned or threw a parser error, with the kept parameters. *)
Lemma mapM_guard_ParamsTranslated
    (thunk : Param.t TSNode -> M NativeModulePropertyShape) parameters s params
    s1 :
  ParamsTranslated thunk parameters s params s1 <->
  exists parsed,
    mapM (fun typeScriptParam => guard _ (thunk typeScriptParam)) parameters s
    = (Returned parsed, s1)
    /\ omap id parsed = params.
Proof.
  split.
  - induction 1 as [s|p ps s v s1 vs s2 Hp _ (parsed & Hrest & Homap)
                      |p ps s e s1 vs s2 Hp _ (parsed & Hrest & Homap)].
    + by exists [].
    + exists (Some v :: parsed). split; [|by rewrite <- Homap].
      cbn [mapM]. unfold bind at 1, guard at 1.
      rewrite Hp. unfold bind at 1. by rewrite Hrest.
    + exists (None :: parsed). split; [|by rewrite <- Homap].
      cbn [mapM]. unfold bind at 1, guard at 1.
      rewrite Hp. unfold bind at 1. by rewrite Hrest.
  - revert s params. induction parameters as [|p ps IH]; intros s params.
    + intros (parsed & [= <- <-] & <-). constructor.
    + intros (parsed & Hrun & <-). simpl in Hrun.
      apply bind_inv_returned in Hrun as (o & s0 & Hguard & Hrun).
      apply bind_inv_returned in Hrun as (rest & s2 & Hrest & [= <- <-]).
      unfold guard in Hguard.
      destruct (thunk p s) as [[v|[e| |]|] s'] eqn:Hp;
        try discriminate; injection Hguard as <- <-.
      * simpl. eapply ParamsTranslated_kept; [exact Hp|].
        apply IH. by exists rest.
      * simpl. eapply ParamsTranslated_dropped; [exact Hp|].
        apply IH. by exists rest.
Qed.

Lemma translateParams_guard fuel name types cxxOnly parameters s params s1 :
  translateParams fuel name types guard cxxOnly parameters s
  = (Returned params, s1) <->
  ParamsTranslated (translateParam fuel name types guard cxxOnly) parameters s
    params s1.
Proof.
  rewrite mapM_guard_ParamsTranslated. unfold translateParams. split.
  - intros (parsed & s0 & Hrun & [= <- <-])%bind_inv_returned.
    by exists parsed.
  - intros (parsed & Hrun & <-). by rewrite (bind_returned _ _ _ _ _ Hrun).
Qed.

(** C6 (as stated, refuted): a function type in array-element position is
    translated under [nullGuard].  Its parameter [x] has no annotation; the
    [UnnamedFunctionParam] error is not captured, it ends the translation of
    the function type, the sibling [y] is not translated and no parameter
    list results.  The enclosing array swallows the error: the module's
    schema is built and no fault is recorded. *)
Lemma untyped_parameter_inside_array_element :
  let callback :=
    TSFunctionType
      [Param.mk "x" false None; Param.mk "y" false (Some TSNumberKeyword)]
      (Some TSVoidKeyword) in
  translateFunctionTypeAnnotation 5 "NativeSample" callback ∅ nullGuard false
    emptyStore
  = (Thrown (parserError UnnamedFunctionParam "NativeSample"), emptyStore)
  /\ buildModuleSchema 9 "NativeSample"
       {| declarations :=
            [moduleInterface "Spec"
               [TSMethodSignature "f" false
                  [Param.mk "callbacks" false (Some (TSArrayType callback))]
                  (Some TSVoidKeyword)]];
          callExpressions := [registryCall "Sample"] |}
       guard emptyStore
     = (Returned
          {| aliases := ∅;
             properties :=
               [NamedShape.mk "f" false
                  (FunctionTypeAnnotation VoidTypeAnnotation
                     [NamedShape.mk "callbacks" false
                        (ArrayTypeAnnotation None)])];
             moduleNames := ["Sample"];
             excludedPlatforms := None |},
        emptyStore).
Proof. split; vm_compute; reflexivity. Qed.

(** C6 (amended): when [translateFunctionTypeAnnotation] runs under the
    module's error capturer, the declared parameters are gone through in
    source order.  A parameter without a type annotation has
    [UnnamedFunctionParam] captured, one whose type translates to Void or
    Promise has [UnsupportedFunctionParamTypeAnnotation] captured, and each
    yields nothing while the loop goes on; the signature that is returned
    lists exactly the parameters whose translation returned, in their
    order. *)
Theorem parameters_under_the_error_capturer fuel hasteModuleName node
    parameters returnType types cxxOnly s :
  functionSignature node = Some (parameters, Some returnType) ->
  let thunk := translateParam fuel hasteModuleName types guard cxxOnly in
  (forall typeScriptParam s0,
     Param.typeAnnotation typeScriptParam = None ->
     guard _ (thunk typeScriptParam) s0
     = (Returned None,
        pushError {| kind := UnnamedFunctionParam;
                     hasteModuleNameOf := hasteModuleName |} s0))
  /\ (forall typeScriptParam paramType s0 translated s1,
        Param.typeAnnotation typeScriptParam = Some paramType ->
        translateTypeAnnotation fuel hasteModuleName paramType types guard
          cxxOnly s0
        = (Returned translated, s1) ->
        (unwrapNullable translated).1 = VoidTypeAnnotation
        \/ (unwrapNullable translated).1 = PromiseTypeAnnotation ->
        guard _ (thunk typeScriptParam) s0
        = (Returned None,
           pushError {| kind := UnsupportedFunctionParamTypeAnnotation;
                        hasteModuleNameOf := hasteModuleName |} s1))
  /\ (forall params s1 translated s2,
        ParamsTranslated thunk parameters s params s1 ->
        translateTypeAnnotation fuel hasteModuleName returnType types guard
          cxxOnly s1
        = (Returned translated, s2) ->
        cxxOnly = true
        \/ (forall returns takes,
              (unwrapNullable translated).1
              <> FunctionTypeAnnotation returns takes) ->
        translateFunctionTypeAnnotation (S fuel) hasteModuleName node types
          guard cxxOnly s
        = (Returned
             (FunctionTypeAnnotation
                (wrapNullable (unwrapNullable translated).2
                   (unwrapNullable translated).1)
                params), s2))
  /\ (forall fn s',
        translateFunctionTypeAnnotation (S fuel) hasteModuleName node types
          guard cxxOnly s
        = (Returned fn, s') ->
        exists returns params s1,
          fn = FunctionTypeAnnotation returns params
          /\ ParamsTranslated thunk parameters s params s1).
Proof.
  intros Hsignature thunk. split; [|split; [|split]].
  - intros p s0 Hnone. subst thunk. unfold guard, translateParam.
    by rewrite Hnone.
  - intros p paramType s0 translated s1 Hsome Htranslated Hkind.
    subst thunk. unfold guard, translateParam. rewrite Hsome.
    rewrite (bind_returned _ _ _ _ _ Htranslated).
    destruct (unwrapNullable translated) as [t isNullable]. simpl in Hkind.
    by destruct Hkind as [-> | ->].
  - intros params s1 translated s2 Hparams Hreturn Haccepted.
    rewrite translateFunctionTypeAnnotation_unfold, Hsignature.
    apply translateParams_guard in Hparams.
    rewrite (bind_returned _ _ _ _ _ Hparams).
    rewrite (bind_returned _ _ _ _ _ Hreturn).
    destruct (unwrapNullable translated) as [t isNullable]. simpl in *.
    destruct Haccepted as [-> | Hother]; [by destruct t|].
    destruct cxxOnly, t; try reflexivity. exfalso. by eapply Hother.
  - intros fn s'.
    rewrite translateFunctionTypeAnnotation_unfold, Hsignature.
    intros (params & s1 & Hparams%translateParams_guard & Hrest)
      %bind_inv_returned.
    apply bind_inv_returned in Hrest as (translated & s2 & _ & Hrest).
    destruct (unwrapNullable translated) as [t isNullable].
    exists (wrapNullable isNullable t), params, s1. split; [|exact Hparams].
    destruct cxxOnly, t; try discriminate; by injection Hrest as <- _.
Qed.

Lemma parameters_under_the_error_capturer_witness :
  let x := Param.mk "x" false None in
  let y := Param.mk "y" false (Some TSNumberKeyword) in
  let z := Param.mk "z" false (Some TSVoidKeyword) in
  let method := TSMethodSignature "f" false [x; y; z] (Some TSVoidKeyword) in
  let unnamed := {| kind := UnnamedFunctionParam;
                    hasteModuleNameOf := "NativeSample" |} in
  let unsupported := {| kind := UnsupportedFunctionParamTypeAnnotation;
                        hasteModuleNameOf := "NativeSample" |} in
  guard _ (translateParam 4 "NativeSample" ∅ guard false x) emptyStore
  = (Returned None, pushError unnamed emptyStore)
  /\ guard _ (translateParam 4 "NativeSample" ∅ guard false z) emptyStore
     = (Returned None, pushError unsupported emptyStore)
  /\ translateFunctionTypeAnnotation 5 "NativeSample" method ∅ guard false
       emptyStore
     = (Returned
          (FunctionTypeAnnotation VoidTypeAnnotation
             [NamedShape.mk "y" false NumberTypeAnnotation]),
        pushError unsupported (pushError unnamed emptyStore)).
Proof.
  intros x y z method unnamed unsupported.
  destruct (parameters_under_the_error_capturer 4 "NativeSample" method
              [x; y; z] TSVoidKeyword ∅ false emptyStore eq_refl)
    as (Hunnamed & Hunsupported & Hreturned & _).
  split; [|split].
  - by apply Hunnamed.
  - apply (Hunsupported z TSVoidKeyword emptyStore VoidTypeAnnotation
             emptyStore); [reflexivity|reflexivity|by left].
  - apply (Hreturned [NamedShape.mk "y" false NumberTypeAnnotation]
             (pushError unsupported (pushError unnamed emptyStore))
             VoidTypeAnnotation).
    + eapply ParamsTranslated_dropped; [reflexivity|].
      eapply ParamsTranslated_kept; [reflexivity|].
      eapply ParamsTranslated_dropped; [reflexivity|].
      apply ParamsTranslated_nil.
    + reflexivity.
    + right. discriminate.
Defined.

(** ** Arrays *)

(** Under [nullGuard] no translator touches the captured errors. *)
Lemma translateTypeAnnotation_nullGuard_errors fuel name node types cxxOnly s :
  errors (translateTypeAnnotation fuel name node types nullGuard cxxOnly s).2
  = errors s.
Proof.
  destruct (translators_respect sameErrors (fun s am => eq_refl) fuel nullGuard
              (respects_nullGuard sameErrors)) as (H & _ & _).
  apply H.
Qed.

(** C3 (as stated, refuted): a method whose parameter is an array of
    functions keeps the parameter as an Array annotation with no element
    annotation, and the captured errors stay empty: the
    [UnsupportedArrayElementTypeAnnotation] error is not recorded. *)
Lemma unsupported_array_element_leaves_no_fault :
  let callbacks := TSArrayType (TSFunctionType [] (Some TSVoidKeyword)) in
  translateTypeAnnotation 8 "NativeSample" callbacks ∅ guard false emptyStore
  = (Returned (ArrayTypeAnnotation None), emptyStore)
  /\ buildModuleSchema 9 "NativeSample"
       {| declarations :=
            [moduleInterface "Spec"
               [TSMethodSignature "f" false
                  [Param.mk "callbacks" false (Some callbacks)]
                  (Some TSVoidKeyword)]];
          callExpressions := [registryCall "Sample"] |}
       guard emptyStore
     = (Returned
          {| aliases := ∅;
             properties :=
               [NamedShape.mk "f" false
                  (FunctionTypeAnnotation VoidTypeAnnotation
                     [NamedShape.mk "callbacks" false
                        (ArrayTypeAnnotation None)])];
             moduleNames := ["Sample"];
             excludedPlatforms := None |},
        {| aliasMap := ∅; errors := [] |}).
Proof. split; vm_compute; reflexivity. Qed.

Lemma translateArrayTypeAnnotation_unsupported fuel hasteModuleName types
    cxxOnly tsArrayType tsElementType nullable s translated s' :
  translateTypeAnnotation fuel hasteModuleName tsElementType types nullGuard
    cxxOnly s
  = (Returned translated, s') ->
  unsupportedArrayElement (unwrapNullable translated).1 = true ->
  translateArrayTypeAnnotation (S fuel) hasteModuleName types cxxOnly
    tsArrayType tsElementType nullable s
  = (Returned (wrapNullable nullable (ArrayTypeAnnotation None)), s').
Proof.
  intros Helement Hkind.
  simpl. unfold tryCatch. rewrite (bind_returned _ _ _ _ _ Helement).
  destruct (unwrapNullable translated) as [t isNullable]. simpl in Hkind.
  by destruct t.
Qed.

(** C3 (amended): when a node resolves to an array and the element type
    translates to a Void, Promise or Function annotation, the translation
    returns the Array annotation with no element annotation; the
    [UnsupportedArrayElementTypeAnnotation] error thrown for the element is
    caught on the spot, and the captured errors are the same after as
    before. *)
Theorem unsupported_array_element_is_swallowed fuel hasteModuleName node
    types tryParse cxxOnly s resolved tsElementType translated s' :
  resolveTypeAnnotation (S fuel) node types = Returned resolved ->
  arrayElementType (typeAnnotation resolved) = Some tsElementType ->
  translateTypeAnnotation fuel hasteModuleName tsElementType types nullGuard
    cxxOnly s
  = (Returned translated, s') ->
  unsupportedArrayElement (unwrapNullable translated).1 = true ->
  translateTypeAnnotation (S (S fuel)) hasteModuleName node types tryParse
    cxxOnly s
  = (Returned (wrapNullable (nullable resolved) (ArrayTypeAnnotation None)), s')
  /\ errors s' = errors s.
Proof.
  intros Hresolve Harray Helement Hkind. split.
  - pose proof (fun kind =>
      translateArrayTypeAnnotation_unsupported fuel hasteModuleName types
        cxxOnly kind tsElementType (nullable resolved) s translated s'
        Helement Hkind) as Harr.
    cbn [translateTypeAnnotation]. unfold bind at 1. unfold liftOutcome.
    rewrite Hresolve.
    destruct (typeAnnotation resolved)
      as [elementType|operator inner|name typeParameters| | | | | | | | | | | | | |];
      try discriminate; simpl in Harray.
    + injection Harray as ->. apply Harr.
    + destruct inner; try discriminate.
      destruct (String.eqb operator "readonly"); [|discriminate].
      injection Harray as ->. apply Harr.
    + destruct typeParameters as [[|param [|? ?]]|]; try discriminate.
      destruct (String.eqb name "Array" || String.eqb name "ReadonlyArray")
        eqn:Hname; [|discriminate].
      injection Harray as ->.
      apply orb_true_iff in Hname as [->%String.eqb_eq | ->%String.eqb_eq];
        apply Harr.
  - pose proof (translateTypeAnnotation_nullGuard_errors fuel hasteModuleName
                  tsElementType types cxxOnly s) as H.
    by rewrite Helement in H.
Qed.

Lemma unsupported_array_element_is_swallowed_witness :
  let promises :=
    TSTypeReference "ReadonlyArray"
      (Some [TSTypeReference "Promise" (Some [TSVoidKeyword])]) in
  translateTypeAnnotation 6 "NativeSample"
    (TSUnionType [promises; TSNullKeyword]) ∅ guard false emptyStore
  = (Returned (NullableTypeAnnotation (ArrayTypeAnnotation None)), emptyStore)
  /\ errors emptyStore = errors emptyStore.
Proof.
  intros promises.
  apply (unsupported_array_element_is_swallowed 4 "NativeSample"
           (TSUnionType [promises; TSNullKeyword]) ∅ guard false emptyStore
           {| nullable := true; typeAnnotation := promises;
              typeAliasResolutionStatus := Some "ReadonlyArray" |}
           (TSTypeReference "Promise" (Some [TSVoidKeyword]))
           PromiseTypeAnnotation emptyStore);
    reflexivity.
Defined.

(** * Further properties of index.js *)

(** ** Array translation *)


(** X2: whatever exception the translation of the element type throws, a
    parser error or not, the array is translated to the Array annotation
    with no element annotation. *)
Theorem array_element_exception_is_swallowed fuel hasteModuleName types
    cxxOnly tsArrayType tsElementType nullable s e s' :
  translateTypeAnnotation fuel hasteModuleName tsElementType types nullGuard
    cxxOnly s
  = (Thrown e, s') ->
  translateArrayTypeAnnotation (S fuel) hasteModuleName types cxxOnly
    tsArrayType tsElementType nullable s
  = (Returned (wrapNullable nullable (ArrayTypeAnnotation None)), s').
Proof.
  intros Helement. simpl. unfold tryCatch.
  by rewrite (bind_thrown _ _ _ _ _ Helement).
Qed.

Lemma array_element_exception_is_swallowed_witness :
  translateArrayTypeAnnotation 3 "NativeSample" ∅ false "Array"
    (TSTypeReference "Undeclared" None) false emptyStore
  = (Returned (ArrayTypeAnnotation None), emptyStore).
Proof.
  apply (array_element_exception_is_swallowed 2 "NativeSample" ∅ false "Array"
           (TSTypeReference "Undeclared" None) false emptyStore
           (parserError UnsupportedGeneric "NativeSample") emptyStore).
  reflexivity.
Defined.

(** X3: when the element type translates to an annotation other than Void,
    Promise and Function, the array is translated to the Array annotation of
    that element; the element keeps its own nullability inside, the array's
    nullability goes outside. *)
Theorem array_of_supported_element fuel hasteModuleName types cxxOnly
    tsArrayType tsElementType nullable s translated s' :
  translateTypeAnnotation fuel hasteModuleName tsElementType types nullGuard
    cxxOnly s
  = (Returned translated, s') ->
  unsupportedArrayElement (unwrapNullable translated).1 = false ->
  translateArrayTypeAnnotation (S fuel) hasteModuleName types cxxOnly
    tsArrayType tsElementType nullable s
  = (Returned
       (wrapNullable nullable
          (ArrayTypeAnnotation
             (Some (wrapNullable (unwrapNullable translated).2
                      (unwrapNullable translated).1)))),
     s').
Proof.
  intros Helement Hkind. simpl. unfold tryCatch.
  rewrite (bind_returned _ _ _ _ _ Helement).
  destruct (unwrapNullable translated) as [t isNullable]. simpl in *.
  by destruct t.
Qed.

Lemma array_of_supported_element_witness :
  translateArrayTypeAnnotation 4 "NativeSample" ∅ false "Array"
    (TSUnionType [TSNumberKeyword; TSNullKeyword]) true emptyStore
  = (Returned
       (NullableTypeAnnotation
          (ArrayTypeAnnotation
             (Some (NullableTypeAnnotation NumberTypeAnnotation)))),
     emptyStore).
Proof.
  apply (array_of_supported_element 3 "NativeSample" ∅ false "Array"
           (TSUnionType [TSNumberKeyword; TSNullKeyword]) true emptyStore
           (NullableTypeAnnotation NumberTypeAnnotation) emptyStore);
    reflexivity.
Defined.

(** ** The cases of [translateTypeAnnotation] *)

(** X4: a node that resolves to a boolean, number, string or void keyword
    is translated to the matching annotation under the resolved
    nullability, in either mode and under any capturer; nothing is thrown
    and the store is untouched. *)
Theorem primitive_keywords_translate fuel hasteModuleName node types tryParse
    cxxOnly s resolved t :
  resolveTypeAnnotation fuel node types = Returned resolved ->
  primitiveKeyword (typeAnnotation resolved) = Some t ->
  translateTypeAnnotation (S fuel) hasteModuleName node types tryParse cxxOnly s
  = (Returned (wrapNullable (nullable resolved) t), s).
Proof.
  intros Hresolve Hkeyword. simpl. unfold bind, liftOutcome. rewrite Hresolve.
  destruct (typeAnnotation resolved); try discriminate;
    by injection Hkeyword as <-.
Qed.

Lemma primitive_keywords_translate_witness :
  translateTypeAnnotation 3 "NativeSample"
    (TSUnionType [TSStringKeyword; TSNullKeyword]) ∅ guard false emptyStore
  = (Returned (NullableTypeAnnotation StringTypeAnnotation), emptyStore).
Proof.
  apply (primitive_keywords_translate 2 "NativeSample"
           (TSUnionType [TSStringKeyword; TSNullKeyword]) ∅ guard false
           emptyStore
           {| nullable := true; typeAnnotation := TSStringKeyword;
              typeAliasResolutionStatus := None |}
           StringTypeAnnotation);
    reflexivity.
Defined.

(** X5: a node that resolves to the [unknown] keyword is translated to the
    Mixed annotation in native-only mode and rejected with
    [UnsupportedTypeAnnotation] otherwise; a node no case names is rejected
    with [UnsupportedTypeAnnotation] in both modes. *)
Theorem unknown_keyword_and_default_case fuel hasteModuleName node types
    tryParse cxxOnly s resolved :
  resolveTypeAnnotation fuel node types = Returned resolved ->
  let run :=
    translateTypeAnnotation (S fuel) hasteModuleName node types tryParse
      cxxOnly s in
  (typeAnnotation resolved = TSUnknownKeyword ->
   run = if cxxOnly
         then (Returned (wrapNullable (nullable resolved) MixedTypeAnnotation), s)
         else (Thrown (parserError UnsupportedTypeAnnotation hasteModuleName), s))
  /\ (reachesDefaultCase (typeAnnotation resolved) = true ->
      run = (Thrown (parserError UnsupportedTypeAnnotation hasteModuleName), s)).
Proof.
  intros Hresolve run. subst run.
  split; simpl; unfold bind, liftOutcome; rewrite Hresolve.
  - intros ->. by destruct cxxOnly.
  - by destruct (typeAnnotation resolved).
Qed.

Lemma unknown_keyword_and_default_case_witness :
  translateTypeAnnotation 2 "NativeSampleCxx" TSUnknownKeyword ∅ guard true
    emptyStore
  = (Returned MixedTypeAnnotation, emptyStore)
  /\ translateTypeAnnotation 2 "NativeSampleCxx"
       (TSLiteralType "NumericLiteral") ∅ guard true emptyStore
     = (Thrown (parserError UnsupportedTypeAnnotation "NativeSampleCxx"),
        emptyStore).
Proof.
  split.
  - apply (proj1 (unknown_keyword_and_default_case 1 "NativeSampleCxx"
                    TSUnknownKeyword ∅ guard true emptyStore
                    {| nullable := false; typeAnnotation := TSUnknownKeyword;
                       typeAliasResolutionStatus := None |} eq_refl)).
    reflexivity.
  - apply (proj2 (unknown_keyword_and_default_case 1 "NativeSampleCxx"
                    (TSLiteralType "NumericLiteral") ∅ guard true emptyStore
                    {| nullable := false;
                       typeAnnotation := TSLiteralType "NumericLiteral";
                       typeAliasResolutionStatus := None |} eq_refl)).
    reflexivity.
Defined.





(** X8: in native-only mode, for a reference (not a built-in name) to an
    enum declaration, the kind of the first member's initializer decides: a
    numeric literal gives the Enum annotation of Number kind, a string
    literal that of String kind, an initializer of another kind makes the
    translation throw [UnsupportedEnumDeclaration]; an enum without members
    makes it throw a [TypeError]. *)
Theorem enum_member_kinds fuel hasteModuleName node types tryParse s resolved
    name typeParameters id members :
  resolveTypeAnnotation fuel node types = Returned resolved ->
  typeAnnotation resolved = TSTypeReference name typeParameters ->
  isBuiltinTypeName name = false ->
  types !! name = Some (TSEnumDeclaration id members) ->
  let run :=
    translateTypeAnnotation (S fuel) hasteModuleName node types tryParse true s in
  (members = [] -> run = (Thrown TypeError, s))
  /\ (forall member rest,
        members = member :: rest ->
        initializer member = Some "NumericLiteral" ->
        run = (Returned (wrapNullable (nullable resolved)
                           (EnumDeclaration "NumberTypeAnnotation")), s))
  /\ (forall member rest,
        members = member :: rest ->
        initializer member = Some "StringLiteral" ->
        run = (Returned (wrapNullable (nullable resolved)
                           (EnumDeclaration "StringTypeAnnotation")), s))
  /\ (forall member rest type,
        members = member :: rest ->
        initializer member = Some type ->
        occursIn "NumericLiteral" type = false ->
        occursIn "StringLiteral" type = false ->
        type <> "NumberTypeAnnotation" -> type <> "StringTypeAnnotation" ->
        run = (Thrown (parserError UnsupportedEnumDeclaration hasteModuleName),
               s)).
Proof.
  intros Hresolve Hreference Hname Htypes run.
  assert (Hrun : run =
    match members with
    | [] => (Thrown TypeError, s)
    | member :: _ =>
        let memberType :=
          match initializer member with
          | Some type => remapLiteralName type
          | None => "StringTypeAnnotation"
          end in
        if String.eqb memberType "NumberTypeAnnotation"
           || String.eqb memberType "StringTypeAnnotation"
        then (Returned (wrapNullable (nullable resolved)
                          (EnumDeclaration memberType)), s)
        else (Thrown (parserError UnsupportedEnumDeclaration hasteModuleName), s)
    end).
  { subst run. simpl. unfold bind, liftOutcome.
    rewrite Hresolve, Hreference.
    destruct (not_builtin_type_name _ Hname)
      as (-> & -> & -> & -> & -> & -> & -> & -> & -> & ->).
    simpl. rewrite Htypes.
    destruct members as [|member rest]; [reflexivity|].
    by destruct (_ || _). }
  rewrite Hrun. clear Hrun. split; [|split; [|split]].
  - by intros ->.
  - intros member rest -> Hinit. by rewrite Hinit.
  - intros member rest -> Hinit. by rewrite Hinit.
  - intros member rest type -> Hinit Hnum Hstr Hn Hs. simpl. rewrite Hinit.
    unfold remapLiteralName.
    rewrite (replace_not_occurring _ _ type Hnum).
    rewrite (replace_not_occurring _ _ type Hstr).
    apply String.eqb_neq in Hn, Hs. by rewrite Hn, Hs.
Qed.

Lemma enum_member_kinds_witness :
  let enum initializers := TSEnumDeclaration "Level" initializers in
  let run initializers :=
    translateTypeAnnotation 2 "NativeSampleCxx" (TSTypeReference "Level" None)
      {["Level" := enum initializers]} guard true emptyStore in
  run [] = (Thrown TypeError, emptyStore)
  /\ run [{| initializer := Some "NumericLiteral" |}]
     = (Returned (EnumDeclaration "NumberTypeAnnotation"), emptyStore)
  /\ run [{| initializer := Some "UnaryExpression" |}]
     = (Thrown (parserError UnsupportedEnumDeclaration "NativeSampleCxx"),
        emptyStore).
Proof.
  intros enum run.
  pose (resolved := {| nullable := false;
                       typeAnnotation := TSTypeReference "Level" None;
                       typeAliasResolutionStatus := Some "Level" |}).
  pose proof (fun initializers =>
    enum_member_kinds 1 "NativeSampleCxx" (TSTypeReference "Level" None)
      {["Level" := enum initializers]} guard emptyStore resolved "Level" None
      "Level" initializers eq_refl eq_refl eq_refl eq_refl) as H.
  split; [|split].
  - by apply (H []).
  - by eapply (H [{| initializer := Some "NumericLiteral" |}]).
  - eapply (H [{| initializer := Some "UnaryExpression" |}]);
      [reflexivity|reflexivity|reflexivity|reflexivity|discriminate
      |discriminate].
Defined.

(** ** Object literals and signatures under a capturer *)

Lemma mapM_guard_Captured {A B} (thunk : A -> M B) items s results s1 :
  Captured thunk items s results s1 <->
  exists parsed,
    mapM (fun item => guard _ (thunk item)) items s = (Returned parsed, s1)
    /\ omap id parsed = results.
Proof.
  split.
  - induction 1 as [s|x xs s v s1 vs s2 Hx _ (parsed & Hrest & Homap)
                      |x xs s e s1 vs s2 Hx _ (parsed & Hrest & Homap)].
    + by exists [].
    + exists (Some v :: parsed). split; [|by rewrite <- Homap].
      cbn [mapM]. unfold bind at 1, guard at 1.
      rewrite Hx. unfold bind at 1. by rewrite Hrest.
    + exists (None :: parsed). split; [|by rewrite <- Homap].
      cbn [mapM]. unfold bind at 1, guard at 1.
      rewrite Hx. unfold bind at 1. by rewrite Hrest.
  - revert s results. induction items as [|x xs IH]; intros s results.
    + intros (parsed & [= <- <-] & <-). constructor.
    + intros (parsed & Hrun & <-). cbn [mapM] in Hrun.
      apply bind_inv_returned in Hrun as (o & s0 & Hguard & Hrun).
      apply bind_inv_returned in Hrun as (rest & s2 & Hrest & [= <- <-]).
      unfold guard in Hguard.
      destruct (thunk x s) as [[v|[e| |]|] s'] eqn:Hx;
        try discriminate; injection Hguard as <- <-.
      * simpl. eapply Captured_kept; [exact Hx|]. apply IH. by exists rest.
      * simpl. eapply Captured_dropped; [exact Hx|]. apply IH. by exists rest.
Qed.

(** X9: under the error capturer, the members of an object literal are
    translated one by one.  A member that is not a property signature has
    [UnsupportedObjectPropertyTypeAnnotation] captured, a property whose
    type translates to Function, Void or Promise has
    [UnsupportedObjectPropertyValueTypeAnnotation] captured, and each yields
    nothing; the object is built from the members whose translation
    returned, in their order, and handed to [typeAliasResolution]. *)
Theorem object_members_under_the_error_capturer fuel hasteModuleName node
    types cxxOnly s resolved members :
  resolveTypeAnnotation fuel node types = Returned resolved ->
  typeAnnotation resolved = TSTypeLiteral members ->
  let thunk := translateObjectMember fuel hasteModuleName types guard cxxOnly in
  (forall property s0,
     (forall key optional propertyType,
        property <> TSPropertySignature key optional propertyType) ->
     guard _ (thunk property) s0
     = (Returned None,
        pushError {| kind := UnsupportedObjectPropertyTypeAnnotation;
                     hasteModuleNameOf := hasteModuleName |} s0))
  /\ (forall key optional propertyType s0 translated s1,
        translateTypeAnnotation fuel hasteModuleName propertyType types guard
          cxxOnly s0
        = (Returned translated, s1) ->
        unsupportedObjectPropertyValue (unwrapNullable translated).1 = true ->
        guard _ (thunk (TSPropertySignature key optional (Some propertyType)))
          s0
        = (Returned None,
           pushError {| kind := UnsupportedObjectPropertyValueTypeAnnotation;
                        hasteModuleNameOf := hasteModuleName |} s1))
  /\ (forall properties s1,
        Captured thunk members s properties s1 ->
        translateTypeAnnotation (S fuel) hasteModuleName node types guard
          cxxOnly s
        = typeAliasResolution (typeAliasResolutionStatus resolved)
            (ObjectTypeAnnotation properties) (nullable resolved) s1).
Proof.
  intros Hresolve Hliteral thunk. split; [|split].
  - intros property s0 Hother. subst thunk. unfold guard.
    destruct property; try reflexivity. by edestruct Hother.
  - intros key optional propertyType s0 translated s1 Htranslated Hkind.
    subst thunk. unfold guard, translateObjectMember.
    rewrite (bind_returned _ _ _ _ _ Htranslated).
    destruct (unwrapNullable translated) as [t isNullable]. simpl in Hkind.
    by destruct t.
  - intros properties s1 (parsed & Hparsed & <-)%mapM_guard_Captured.
    cbn [translateTypeAnnotation]. unfold bind at 1. unfold liftOutcome.
    rewrite Hresolve, Hliteral.
    change (mapM _ members) with (mapM (fun item => guard _ (thunk item)) members).
    by rewrite (bind_returned _ _ _ _ _ Hparsed).
Qed.

Lemma object_members_under_the_error_capturer_witness :
  let weight := TSPropertySignature "weight" true (Some TSNumberKeyword) in
  let done := TSPropertySignature "done" false (Some TSVoidKeyword) in
  let index := TSOtherNode "TSIndexSignature" in
  let faults :=
    [{| kind := UnsupportedObjectPropertyValueTypeAnnotation;
        hasteModuleNameOf := "NativeSample" |};
     {| kind := UnsupportedObjectPropertyTypeAnnotation;
        hasteModuleNameOf := "NativeSample" |}] in
  translateTypeAnnotation 4 "NativeSample" (TSTypeLiteral [weight; done; index])
    ∅ guard false emptyStore
  = (Returned
       (ObjectTypeAnnotation [NamedShape.mk "weight" true NumberTypeAnnotation]),
     {| aliasMap := ∅; errors := faults |}).
Proof.
  intros weight done index faults.
  destruct (object_members_under_the_error_capturer 3 "NativeSample"
              (TSTypeLiteral [weight; done; index]) ∅ false emptyStore
              {| nullable := false;
                 typeAnnotation := TSTypeLiteral [weight; done; index];
                 typeAliasResolutionStatus := None |}
              [weight; done; index] eq_refl eq_refl)
    as (_ & _ & Hobject).
  apply (Hobject [NamedShape.mk "weight" true NumberTypeAnnotation]
           {| aliasMap := ∅; errors := faults |}).
  eapply Captured_kept; [reflexivity|].
  eapply Captured_dropped; [reflexivity|].
  eapply Captured_dropped; [reflexivity|].
  apply Captured_nil.
Defined.

Lemma translateParam_returned fuel name types tryParse cxxOnly typeScriptParam
    s param s' :
  translateParam fuel name types tryParse cxxOnly typeScriptParam s
  = (Returned param, s') ->
  NamedShape.name param = Param.name typeScriptParam
  /\ NamedShape.optional param = Param.optional typeScriptParam.
Proof.
  unfold translateParam.
  destruct (Param.typeAnnotation typeScriptParam) as [paramType|];
    [|discriminate].
  intros (translated & s1 & _ & Hrest)%bind_inv_returned.
  destruct (unwrapNullable translated) as [annotation isNullable].
  destruct annotation; try discriminate; by injection Hrest as <- _.
Qed.

(** X10: under [nullGuard] nothing is dropped: the signature that
    [translateFunctionTypeAnnotation] returns lists every declared
    parameter, with its name and its optional flag, in source order. *)
Theorem nullGuard_signature_lists_every_parameter fuel hasteModuleName node
    parameters returnType types cxxOnly s returnTypeAnnotation params s' :
  functionSignature node = Some (parameters, returnType) ->
  translateFunctionTypeAnnotation (S fuel) hasteModuleName node types nullGuard
    cxxOnly s
  = (Returned (FunctionTypeAnnotation returnTypeAnnotation params), s') ->
  NamedShape.name <$> params = Param.name <$> parameters
  /\ NamedShape.optional <$> params = Param.optional <$> parameters.
Proof.
  intros Hsignature.
  rewrite translateFunctionTypeAnnotation_unfold, Hsignature.
  intros (kept & s1 & Hparams & Hrest)%bind_inv_returned.
  assert (params = kept) as ->.
  { destruct returnType as [returnType|]; [|discriminate].
    apply bind_inv_returned in Hrest as (translated & s2 & _ & Hrest).
    destruct (unwrapNullable translated) as [t isNullable].
    destruct cxxOnly, t; try discriminate; by injection Hrest as _ <-. }
  clear Hrest. unfold translateParams in Hparams.
  apply bind_inv_returned in Hparams as (parsed & s2 & Hparsed & [= <- _]).
  clear Hsignature. revert s s2 parsed Hparsed.
  induction parameters as [|p ps IH]; intros s s2 parsed Hparsed.
  - by injection Hparsed as <- _.
  - cbn [mapM] in Hparsed.
    apply bind_inv_returned in Hparsed as (o & s3 & Hp & Hparsed).
    apply bind_inv_returned in Hparsed as (rest & s4 & Hrest & [= <- _]).
    unfold nullGuard in Hp.
    apply bind_inv_returned in Hp as (v & s5 & Hv & [= <- _]).
    apply translateParam_returned in Hv as [Hname Hoptional].
    destruct (IH _ _ _ Hrest) as [IHname IHoptional].
    change (omap id (Some v :: rest)) with (v :: omap id rest).
    rewrite !fmap_cons. by rewrite Hname, Hoptional, IHname, IHoptional.
Qed.

Lemma nullGuard_signature_lists_every_parameter_witness :
  NamedShape.name
    <$> [NamedShape.mk "x" false NumberTypeAnnotation;
         NamedShape.mk "y" true StringTypeAnnotation]
  = Param.name
      <$> [Param.mk "x" false (Some TSNumberKeyword);
           Param.mk "y" true (Some TSStringKeyword)]
  /\ NamedShape.optional
       <$> [NamedShape.mk "x" false NumberTypeAnnotation;
            NamedShape.mk "y" true StringTypeAnnotation]
     = Param.optional
         <$> [Param.mk "x" false (Some TSNumberKeyword);
              Param.mk "y" true (Some TSStringKeyword)].
Proof.
  apply (nullGuard_signature_lists_every_parameter 3 "NativeSample"
           (TSFunctionType
              [Param.mk "x" false (Some TSNumberKeyword);
               Param.mk "y" true (Some TSStringKeyword)]
              (Some TSVoidKeyword))
           _ (Some TSVoidKeyword) ∅ false emptyStore VoidTypeAnnotation _
           emptyStore);
    reflexivity.
Defined.

(** X11: a signature without a return type annotation makes
    [translateFunctionTypeAnnotation] throw a [TypeError] once the
    parameters are through, under any capturer. *)
Theorem missing_return_type_is_a_type_error fuel hasteModuleName node
    parameters types tryParse cxxOnly s params s1 :
  functionSignature node = Some (parameters, None) ->
  translateParams fuel hasteModuleName types tryParse cxxOnly parameters s
  = (Returned params, s1) ->
  translateFunctionTypeAnnotation (S fuel) hasteModuleName node types tryParse
    cxxOnly s
  = (Thrown TypeError, s1).
Proof.
  intros Hsignature Hparams.
  rewrite translateFunctionTypeAnnotation_unfold, Hsignature.
  by rewrite (bind_returned _ _ _ _ _ Hparams).
Qed.

Lemma missing_return_type_is_a_type_error_witness :
  translateFunctionTypeAnnotation 3 "NativeSample"
    (TSMethodSignature "reset" false
       [Param.mk "hard" false (Some TSBooleanKeyword)] None)
    ∅ guard false emptyStore
  = (Thrown TypeError, emptyStore).
Proof.
  apply (missing_return_type_is_a_type_error 2 "NativeSample" _
           [Param.mk "hard" false (Some TSBooleanKeyword)] ∅ guard false
           emptyStore [NamedShape.mk "hard" false BooleanTypeAnnotation]
           emptyStore);
    reflexivity.
Defined.

(** ** Members of the module interface *)

Lemma translateFunctionTypeAnnotation_returns_function fuel name node types
    tryParse cxxOnly s fn s' :
  translateFunctionTypeAnnotation fuel name node types tryParse cxxOnly s
  = (Returned fn, s') ->
  exists returnTypeAnnotation params,
    fn = FunctionTypeAnnotation returnTypeAnnotation params.
Proof.
  destruct fuel as [|fuel]; [discriminate|].
  rewrite translateFunctionTypeAnnotation_unfold.
  destruct (functionSignature node) as [[parameters [returnType|]]|];
    try discriminate.
  - intros (params & s1 & _ & Hrest)%bind_inv_returned.
    apply bind_inv_returned in Hrest as (translated & s2 & _ & Hrest).
    destruct (unwrapNullable translated) as [t isNullable].
    destruct cxxOnly, t; try discriminate; injection Hrest as <- _; eauto.
  - by intros (params & s1 & _ & Hrest)%bind_inv_returned.
Qed.

(** X12: a member of the module interface whose type does not resolve to a
    function type is rejected with [UnsupportedModuleProperty]. *)
Theorem data_properties_are_rejected fuel hasteModuleName key optional value
    types tryParse cxxOnly s resolved :
  resolveTypeAnnotation fuel value types = Returned resolved ->
  functionSignature (typeAnnotation resolved) = None ->
  buildPropertySchema fuel hasteModuleName
    (TSPropertySignature key optional (Some value)) types tryParse cxxOnly s
  = (Thrown (parserError UnsupportedModuleProperty hasteModuleName), s).
Proof.
  intros Hresolve Hother. unfold buildPropertySchema, bind, liftOutcome.
  rewrite Hresolve. by destruct (typeAnnotation resolved).
Qed.

Lemma data_properties_are_rejected_witness :
  buildPropertySchema 2 "NativeSample"
    (TSPropertySignature "version" false (Some TSNumberKeyword)) ∅ guard false
    emptyStore
  = (Thrown (parserError UnsupportedModuleProperty "NativeSample"), emptyStore).
Proof.
  apply (data_properties_are_rejected 2 "NativeSample" "version" false
           TSNumberKeyword ∅ guard false emptyStore
           {| nullable := false; typeAnnotation := TSNumberKeyword;
              typeAliasResolutionStatus := None |});
    reflexivity.
Defined.

Lemma buildPropertySchema_returned fuel name property types tryParse cxxOnly s
    shape s' :
  buildPropertySchema fuel name property types tryParse cxxOnly s
  = (Returned shape, s') ->
  isSignature property = true
  /\ NamedShape.name shape = signatureKey property
  /\ NamedShape.optional shape = signatureOptional property
  /\ isFunctionAnnotation (NamedShape.typeAnnotation shape) = true.
Proof.
  assert (Hbuild : forall key optional value,
    (let* resolved := liftOutcome (resolveTypeAnnotation fuel value types) in
     match typeAnnotation resolved with
     | (TSFunctionType _ _ | TSMethodSignature _ _ _ _) as value =>
         let* fn :=
           translateFunctionTypeAnnotation fuel name value types tryParse
             cxxOnly in
         ret (NamedShape.mk key optional (wrapNullable (nullable resolved) fn))
     | _ => throwParserError UnsupportedModuleProperty name
     end) s = (Returned shape, s') ->
    NamedShape.name shape = key /\ NamedShape.optional shape = optional
    /\ isFunctionAnnotation (NamedShape.typeAnnotation shape) = true).
  { intros key optional value
      (resolved & s1 & _ & Hrest)%bind_inv_returned.
    destruct (typeAnnotation resolved); try discriminate;
      apply bind_inv_returned in Hrest as (fn & s2 & Hfn & [= <- _]);
      apply translateFunctionTypeAnnotation_returns_function in Hfn
        as (r & ps & ->);
      by destruct (nullable resolved). }
  unfold buildPropertySchema.
  destruct property; try discriminate; simpl.
  - destruct typeAnnotation0 as [value|]; [|discriminate].
    intros H. split; [done|]. by eapply Hbuild.
  - intros H. split; [done|]. by eapply Hbuild.
Qed.



Lemma mapM_returned_Forall2 {A B} (P : A -> B -> Prop) (f : A -> M B) l :
  (forall x s y s', f x s = (Returned y, s') -> P x y) ->
  forall s ys s', mapM f l s = (Returned ys, s') -> Forall2 P l ys.
Proof.
  intros Hf. induction l as [|x l IH]; intros s ys s'; cbn [mapM].
  - intros [= <- _]. constructor.
  - intros (y & s1 & Hy & Hrest)%bind_inv_returned.
    apply bind_inv_returned in Hrest as (rest & s2 & Hrest & [= <- _]).
    constructor; [by eapply Hf|by eapply IH].
Qed.

(** X14: the properties of a schema built under the error capturer follow
    the method and property signatures of the interface: their names are
    the keys of some of the signatures, in the order of the interface, and
    each is typed by a Function annotation. *)
Theorem schema_properties_follow_the_interface fuel hasteModuleName ast s
    schema s' :
  buildModuleSchema fuel hasteModuleName ast guard s = (Returned schema, s') ->
  exists extends body,
    moduleSpecs (getTypes ast) = [TSInterfaceDeclaration "Spec" extends body]
    /\ NamedShape.name <$> properties schema
       `sublist_of`
       signatureKey <$> filter (fun property => isSignature property = true) body
    /\ Forall
         (fun shape => isFunctionAnnotation (NamedShape.typeAnnotation shape)
                       = true)
         (properties schema).
Proof.
  intros (extends & body & moduleName & s1 & Hspec & _ & Hbuild)
    %buildModuleSchema_returned.
  exists extends, body. split; [exact Hspec|].
  unfold buildSchemaFromSpec in Hbuild.
  destruct (validateNames _) as [cxxOnly excluded].
  apply bind_inv_returned in Hbuild as (parsed & s2 & Hparsed & [= <- _]).
  rewrite foldl_reducer_properties. simpl.
  eapply (mapM_returned_Forall2
            (fun property (o : option (NativeModuleAliasMap
                                       * NativeModulePropertyShape)) =>
               forall aliasMap shape,
                 o = Some (aliasMap, shape) ->
                 NamedShape.name shape = signatureKey property
                 /\ isFunctionAnnotation (NamedShape.typeAnnotation shape)
                    = true)) in Hparsed.
  - generalize dependent
      (filter (fun property => isSignature property = true) body).
    clear. intros members Hparsed.
    induction Hparsed as [|property o members parsed Ho _ IH].
    + split; [reflexivity|constructor].
    + destruct IH as [IHnames IHtypes].
      destruct o as [[aliasMap shape]|].
      * change (omap id (Some (aliasMap, shape) :: parsed))
          with ((aliasMap, shape) :: omap id parsed).
        destruct (Ho _ _ eq_refl) as [Hname Htype].
        rewrite !fmap_cons. simpl. split.
        -- rewrite Hname. by apply sublist_skip.
        -- by constructor.
      * change (omap id (None :: parsed)) with (omap id parsed).
        split; [|done]. rewrite fmap_cons. by apply sublist_cons.
  - intros property s3 o s4 (_ & s5 & _ & Hguard)%bind_inv_returned
      aliasMap shape ->.
    unfold guard in Hguard.
    match type of Hguard with context [match ?thunk s5 with _ => _ end] =>
      destruct (thunk s5) as [[[am sh]|[e| |]|] s6] eqn:Hthunk end;
      try discriminate.
    injection Hguard as <- <- _.
    apply bind_inv_returned in Hthunk as (sh' & s7 & Hshape & Hrest).
    apply bind_inv_returned in Hrest as (am' & s8 & _ & [= _ <- _]).
    apply buildPropertySchema_returned in Hshape as (_ & Hname & _ & Htype).
    done.
Qed.

Lemma schema_properties_follow_the_interface_witness :
  let body := [voidMethod "start";
               TSPropertySignature "version" false (Some TSNumberKeyword);
               voidMethod "stop"] in
  exists extends body',
    moduleSpecs
      (getTypes {| declarations := [moduleInterface "Spec" body];
                   callExpressions := [registryCall "Sample"] |})
    = [TSInterfaceDeclaration "Spec" extends body']
    /\ ["start"; "stop"]
       `sublist_of`
       signatureKey <$> filter (fun property => isSignature property = true) body'
    /\ Forall
         (fun shape => isFunctionAnnotation (NamedShape.typeAnnotation shape)
                       = true)
         [NamedShape.mk "start" false
            (FunctionTypeAnnotation VoidTypeAnnotation []);
          NamedShape.mk "stop" false
            (FunctionTypeAnnotation VoidTypeAnnotation [])].
Proof.
  intros body.
  apply (schema_properties_follow_the_interface 5 "NativeSample"
           {| declarations := [moduleInterface "Spec" body];
              callExpressions := [registryCall "Sample"] |}
           emptyStore
           {| aliases := ∅;
              properties :=
                [NamedShape.mk "start" false
                   (FunctionTypeAnnotation VoidTypeAnnotation []);
                 NamedShape.mk "stop" false
                   (FunctionTypeAnnotation VoidTypeAnnotation [])];
              moduleNames := ["Sample"];
              excludedPlatforms := None |}
           {| aliasMap := ∅;
              errors := [{| kind := UnsupportedModuleProperty;
                            hasteModuleNameOf := "NativeSample" |}] |}).
  vm_compute. reflexivity.
Defined.

(** ** The module builder under the error capturer *)

(** X15: under the error capturer, the only parser errors
    [buildModuleSchema] throws are the three module-interface errors, and
    it throws them before anything is recorded. *)
Theorem only_interface_faults_abort fuel hasteModuleName ast s e s' :
  buildModuleSchema fuel hasteModuleName ast guard s = (Thrown (ParserErr e), s') ->
  kind e ∈ [ModuleInterfaceNotFound; MoreThanOneModuleInterface;
            MisnamedModuleInterface]
  /\ s' = s.
Proof.
  unfold buildModuleSchema.
  destruct (moduleSpecs (getTypes ast)) as [|moduleSpec [|? ?]].
  - intros [= <- <-]. split; [|done]. apply list_elem_of_In; simpl; auto.
  - destruct (negb _).
    + intros [= <- <-]. split; [|done]. apply list_elem_of_In; simpl; auto.
    + intros H. exfalso. revert H.
      apply bind_neverThrowsParserError;
        [apply guard_neverThrowsParserError|].
      intros moduleName. destruct moduleSpec.
      * apply buildSchemaFromSpec_guard_neverThrowsParserError.
      * intros ? ? ?. unfold throw. congruence.
      * intros ? ? ?. unfold throw. congruence.
  - intros [= <- <-]. split; [|done]. apply list_elem_of_In; simpl; auto.
Qed.

Lemma only_interface_faults_abort_witness :
  kind {| kind := MisnamedModuleInterface; hasteModuleNameOf := "NativeSample" |}
  ∈ [ModuleInterfaceNotFound; MoreThanOneModuleInterface;
     MisnamedModuleInterface]
  /\ emptyStore = emptyStore.
Proof.
  apply (only_interface_faults_abort 3 "NativeSample"
           {| declarations := [moduleInterface "Sample" [voidMethod "f"]];
              callExpressions := [] |}).
  reflexivity.
Defined.



(** ** The registration call, case by case *)

(** X17: a single registration call with one string-literal argument and
    the one type argument [Spec] gives the module its name: the thunk
    returns the literal's value, nothing is recorded for it, and under the
    error capturer the schema is built with that value as its only module
    name. *)
Theorem registered_name_is_the_module_name fuel hasteModuleName ast s extends
    body call argument parameters typeArguments :
  moduleSpecs (getTypes ast) = [TSInterfaceDeclaration "Spec" extends body] ->
  filter (fun node => isModuleRegistryCall node = true) (callExpressions ast)
  = [call] ->
  arguments call = [argument] ->
  argumentType argument = "StringLiteral" ->
  typeParameters call = Some parameters ->
  typeParametersType parameters = "TSTypeParameterInstantiation" ->
  typeParametersParams parameters = [TSTypeReference "Spec" typeArguments] ->
  parseModuleName hasteModuleName ast s = (Returned (argumentValue argument), s)
  /\ buildModuleSchema fuel hasteModuleName ast guard s
     = buildSchemaFromSpec fuel hasteModuleName (getTypes ast) body guard
         [argumentValue argument] s
  /\ (forall schema s',
        buildModuleSchema fuel hasteModuleName ast guard s
        = (Returned schema, s') ->
        moduleNames schema = [argumentValue argument]).
Proof.
  intros Hspec Hcalls Harguments Hliteral Hparameters Htype Hparams.
  assert (Hparse : parseModuleName hasteModuleName ast s
                   = (Returned (argumentValue argument), s)).
  { unfold parseModuleName.
    by rewrite Hcalls, Harguments, Hliteral, Hparameters, Hparams, Htype. }
  assert (Hrun : buildModuleSchema fuel hasteModuleName ast guard s
                 = buildSchemaFromSpec fuel hasteModuleName (getTypes ast) body
                     guard [argumentValue argument] s).
  { unfold buildModuleSchema. rewrite Hspec. simpl.
    unfold bind at 1. unfold guard at 1. by rewrite Hparse. }
  split; [exact Hparse|]. split; [exact Hrun|].
  intros schema s'. rewrite Hrun.
  by intros [-> _]%buildSchemaFromSpec_returned.
Qed.

Lemma registered_name_is_the_module_name_witness :
  let ast := {| declarations := [moduleInterface "Spec" [voidMethod "f"]];
                callExpressions := [registryCall "Sample"] |} in
  parseModuleName "NativeSample" ast emptyStore = (Returned "Sample", emptyStore)
  /\ moduleNames
       {| aliases := ∅;
          properties :=
            [NamedShape.mk "f" false
               (FunctionTypeAnnotation VoidTypeAnnotation [])];
          moduleNames := ["Sample"];
          excludedPlatforms := None |}
     = ["Sample"].
Proof.
  intros ast.
  destruct (registered_name_is_the_module_name 5 "NativeSample" ast emptyStore
              [turboModule] [voidMethod "f"] (registryCall "Sample")
              {| argumentType := "StringLiteral"; argumentValue := "Sample" |}
              {| typeParametersType := "TSTypeParameterInstantiation";
                 typeParametersParams := [TSTypeReference "Spec" None] |}
              None eq_refl eq_refl eq_refl eq_refl eq_refl eq_refl eq_refl)
    as (Hparse & _ & Hnames).
  split; [exact Hparse|].
  apply (Hnames _ emptyStore). vm_compute. reflexivity.
Defined.

(** X18: the checks on the single registration call come in a fixed order,
    each with its own error: a number of arguments other than one, then an
    argument that is not a string literal, then missing type parameters,
    then type parameters that are not the one reference to [Spec]. *)
Theorem registration_call_checks hasteModuleName ast s call :
  filter (fun node => isModuleRegistryCall node = true) (callExpressions ast)
  = [call] ->
  let run := parseModuleName hasteModuleName ast s in
  (length (arguments call) <> 1 ->
   run = (Thrown (parserError IncorrectModuleRegistryCallArity
                    hasteModuleName), s))
  /\ (forall argument,
        arguments call = [argument] ->
        argumentType argument <> "StringLiteral" ->
        run = (Thrown (parserError IncorrectModuleRegistryCallArgumentType
                         hasteModuleName), s))
  /\ (forall argument,
        arguments call = [argument] ->
        argumentType argument = "StringLiteral" ->
        typeParameters call = None ->
        run = (Thrown (parserError UntypedModuleRegistryCall hasteModuleName),
               s))
  /\ (forall argument parameters,
        arguments call = [argument] ->
        argumentType argument = "StringLiteral" ->
        typeParameters call = Some parameters ->
        typeParametersType parameters <> "TSTypeParameterInstantiation"
        \/ (forall typeArguments,
              typeParametersParams parameters
              <> [TSTypeReference "Spec" typeArguments]) ->
        run = (Thrown (parserError IncorrectModuleRegistryCallTypeParameter
                         hasteModuleName), s)).
Proof.
  intros Hcalls run. subst run. unfold parseModuleName. rewrite Hcalls.
  split; [|split; [|split]].
  - intros Hlength. by destruct (arguments call) as [|? [|? ?]].
  - intros argument -> Htype. apply String.eqb_neq in Htype.
    by rewrite Htype.
  - intros argument -> -> ->. reflexivity.
  - intros argument parameters -> -> -> Hwrong.
    cbn [String.eqb negb].
    change (negb ("StringLiteral" =? "StringLiteral")%string) with false.
    cbv iota.
    destruct (typeParametersParams parameters) as [|[] [|? ?]] eqn:Hparams;
      try reflexivity.
    destruct Hwrong as [Htype | Hparam].
    + apply String.eqb_neq in Htype. by rewrite Htype.
    + destruct (String.eqb_spec typeName "Spec") as [->|];
        [by edestruct Hparam | by rewrite andb_false_r].
Qed.

Lemma registration_call_checks_witness :
  let call arguments typeParameters :=
    {| callee := callee (registryCall "Sample");
       arguments := arguments; typeParameters := typeParameters |} in
  let run call :=
    parseModuleName "NativeSample"
      {| declarations := []; callExpressions := [call] |} emptyStore in
  let literal := {| argumentType := "StringLiteral"; argumentValue := "Sample" |} in
  run (call [] None)
  = (Thrown (parserError IncorrectModuleRegistryCallArity "NativeSample"),
     emptyStore)
  /\ run (call [{| argumentType := "Identifier"; argumentValue := "" |}] None)
     = (Thrown (parserError IncorrectModuleRegistryCallArgumentType
                  "NativeSample"), emptyStore)
  /\ run (call [literal] None)
     = (Thrown (parserError UntypedModuleRegistryCall "NativeSample"),
        emptyStore)
  /\ run (call [literal]
            (Some {| typeParametersType := "TSTypeParameterInstantiation";
                     typeParametersParams := [TSTypeReference "Other" None] |}))
     = (Thrown (parserError IncorrectModuleRegistryCallTypeParameter
                  "NativeSample"), emptyStore).
Proof.
  intros call run literal.
  pose proof (fun c =>
    registration_call_checks "NativeSample"
      {| declarations := []; callExpressions := [c] |} emptyStore c) as H.
  split; [|split; [|split]].
  - apply (H (call [] None) eq_refl). simpl. lia.
  - eapply (H (call [_] None) eq_refl); [reflexivity|discriminate].
  - eapply (H (call [literal] None) eq_refl); reflexivity.
  - eapply (H (call [literal] (Some _)) eq_refl);
      [reflexivity|reflexivity|reflexivity|].
    right. intros typeArguments. discriminate.
Defined.

(** ** The final reduce, once more *)

(** X19: the reduce neither loses nor invents an alias: a name is in the
    aliases of the schema exactly when the alias map of some parsed member
    has it. *)
Theorem reduce_keeps_every_alias moduleNames excludedPlatforms
    (pairs : list (NativeModuleAliasMap * NativeModulePropertyShape)) k :
  is_Some
    (aliases (foldl reducer (initialSchema moduleNames excludedPlatforms) pairs)
     !! k)
  <-> Exists (fun parsed => is_Some (parsed.1 !! k)) pairs.
Proof.
  assert (Hgen : forall init,
    is_Some (aliases (foldl reducer init pairs) !! k)
    <-> is_Some (aliases init !! k)
        \/ Exists (fun parsed => is_Some (parsed.1 !! k)) pairs).
  { induction pairs as [|[m p] pairs IH]; intros init; cbn [foldl].
    - rewrite Exists_nil. tauto.
    - rewrite IH, Exists_cons. simpl. rewrite lookup_spread.
      destruct (m !! k) as [v|]; [|rewrite <- !not_eq_None_Some; tauto].
      split; [intros _|intros _; left; eauto].
      right. left. eauto. }
  rewrite Hgen. simpl. rewrite lookup_empty. split; [|by right].
  by intros [[? [=]]|H].
Qed.

(** ** The kinds of a union *)



(** ** What the translators return *)

Lemma returns_ret {A} (P : A -> Prop) a : P a -> returns P (ret a).
Proof. intros H s a' s' [= <- _]. exact H. Qed.

Lemma returns_throw {A} (P : A -> Prop) e : returns P (throw e).
Proof. intros s a s'. discriminate. Qed.

Lemma returns_throwParserError {A} (P : A -> Prop) k name :
  returns P (throwParserError k name).
Proof. apply returns_throw. Qed.

Lemma returns_diverge {A} (P : A -> Prop) : returns P diverge.
Proof. intros s a s'. discriminate. Qed.

Lemma returns_bind {A B} (Q : A -> Prop) (P : B -> Prop) (m : M A) k :
  returns Q m -> (forall a, Q a -> returns P (k a)) -> returns P (bind m k).
Proof.
  intros Hm Hk s b s' (a & s1 & Ha & Hb)%bind_inv_returned.
  eapply Hk; [|exact Hb]. by eapply Hm.
Qed.

Lemma returns_True {A} (m : M A) : returns (fun _ => True) m.
Proof. by intros s a s' _. Qed.

Lemma returns_tryCatch {A} (P : A -> Prop) (body : M A) handler :
  returns P body -> (forall e, returns P (handler e)) ->
  returns P (tryCatch body handler).
Proof.
  intros Hb Hh s a s'. unfold tryCatch.
  destruct (body s) as [[a0|e|] s1] eqn:E.
  - intros [= <- _]. by eapply Hb.
  - apply Hh.
  - discriminate.
Qed.

Lemma returns_mapM {A B} (Q : B -> Prop) (f : A -> M B) l :
  (forall x, returns Q (f x)) -> returns (Forall Q) (mapM f l).
Proof.
  intros Hf. induction l as [|x l IH]; cbn [mapM].
  - apply returns_ret. constructor.
  - apply (returns_bind Q); [apply Hf|]. intros y Hy.
    apply (returns_bind (Forall Q)); [apply IH|]. intros ys Hys.
    apply returns_ret. by constructor.
Qed.

Lemma returns_guard {T} (Q : T -> Prop) (fn : M T) :
  returns Q fn -> returns (fun o => forall v, o = Some v -> Q v) (guard T fn).
Proof.
  intros H s o s'. unfold guard.
  destruct (fn s) as [[r|[e| |]|] s1] eqn:E; try discriminate.
  - intros [= <- _] v [= <-]. by eapply H.
  - by intros [= <- _] v.
Qed.

Lemma returns_nullGuard {T} (Q : T -> Prop) (fn : M T) :
  returns Q fn ->
  returns (fun o => forall v, o = Some v -> Q v) (nullGuard T fn).
Proof.
  intros H. apply (returns_bind Q); [exact H|].
  intros r Hr. apply returns_ret. by intros v [= <-].
Qed.

Lemma Forall_omap_id {A} (Q : A -> Prop) (l : list (option A)) :
  Forall (fun o => forall v, o = Some v -> Q v) l -> Forall Q (omap id l).
Proof.
  induction 1 as [|[v|] l Hv _ IH]; simpl; [constructor| |exact IH].
  constructor; [by apply Hv|exact IH].
Qed.

Lemma forallb_Forall {A} (f : A -> bool) l :
  Forall (fun x => f x = true) l -> forallb f l = true.
Proof. induction 1 as [|x l Hx _ IH]; simpl; [done|]. by rewrite Hx, IH. Qed.

Lemma legal_wrapNullable cxxOnly nullable t :
  legal cxxOnly t = true -> legal cxxOnly (wrapNullable nullable t) = true.
Proof. destruct nullable; [|done]. by destruct t. Qed.

(** A legal annotation is its bare annotation under its own nullability. *)
Lemma legal_unwrapNullable cxxOnly t :
  legal cxxOnly t = true ->
  wrapNullable (unwrapNullable t).2 (unwrapNullable t).1 = t
  /\ legal cxxOnly (unwrapNullable t).1 = true.
Proof.
  destruct t as [t'| | | | | | | | | | | | | | | | |]; try done.
  simpl. by destruct t'.
Qed.

Lemma returns_typeAliasResolution cxxOnly status properties nullable :
  legal cxxOnly (ObjectTypeAnnotation properties) = true ->
  returns (fun t => legal cxxOnly t = true)
    (typeAliasResolution status (ObjectTypeAnnotation properties) nullable).
Proof.
  intros Hlegal. destruct status as [aliasName|]; simpl.
  - apply (returns_bind (fun _ => True)); [apply returns_True|].
    intros _ _. apply returns_ret. by destruct nullable.
  - apply returns_ret. by apply legal_wrapNullable.
Qed.

Lemma returns_assertOneTypeParameter name typeParameters :
  returns (fun _ => True)
    (assertGenericTypeAnnotationHasExactlyOneTypeParameter name typeParameters).
Proof. apply returns_True. Qed.

(** Under a capturer that only hands on what its thunk returned, the three
    translators return annotations that are legal for the mode. *)
Lemma translators_return_legal cxxOnly fuel :
  forall tryParse : ParserErrorCapturer,
    (forall T (Q : T -> Prop) (fn : M T),
       returns Q fn ->
       returns (fun o => forall v, o = Some v -> Q v) (tryParse T fn)) ->
    (forall name node types,
       returns (fun t => legal cxxOnly t = true)
         (translateTypeAnnotation fuel name node types tryParse cxxOnly))
    /\ (forall name types kind node nullable,
          returns (fun t => legal cxxOnly t = true)
            (translateArrayTypeAnnotation fuel name types cxxOnly kind node
               nullable))
    /\ (forall name node types,
          returns (fun t => legal cxxOnly t = true)
            (translateFunctionTypeAnnotation fuel name node types tryParse
               cxxOnly)).
Proof.
  induction fuel as [|fuel IH]; intros tryParse HtryParse.
  - repeat split; intros; apply returns_diverge.
  - destruct (IH tryParse HtryParse) as (IHt & IHa & IHf).
    destruct (IH nullGuard (@returns_nullGuard)) as (IHn & _ & _).
    split; [|split].
    + intros name node types. cbn [translateTypeAnnotation].
      apply (returns_bind (fun _ => True)); [apply returns_True|].
      intros resolved _.
      destruct (typeAnnotation resolved)
        as [elementType|operator inner|reference typeParameters|members
            | | | | | | | |parameters returnType|unionMembers| | | |].
      * apply IHa.
      * destruct inner; try apply returns_throwParserError.
        destruct (String.eqb operator "readonly");
          [apply IHa|apply returns_throwParserError].
      * repeat match goal with
          | |- returns _ (if String.eqb ?a ?b then _ else _) =>
              destruct (String.eqb a b)
          | |- returns _ (if String.eqb ?a ?b || ?c then _ else _) =>
              destruct (String.eqb a b || c)
          end;
          try (apply returns_ret; by apply legal_wrapNullable).
        -- apply (returns_bind (fun _ => True)); [apply returns_True|].
           intros _ _. apply returns_ret. by apply legal_wrapNullable.
        -- apply (returns_bind (fun _ => True)); [apply returns_True|].
           intros param _. apply IHa.
        -- destruct cxxOnly; [|apply returns_throwParserError].
           destruct (types !! reference) as [[| |id [|member enumMembers]]|];
             try apply returns_throwParserError; [apply returns_throw|].
           match goal with
           | |- returns _ (if ?b then _ else _) => destruct b
           end; [|apply returns_throwParserError].
           apply returns_ret. by apply legal_wrapNullable.
      * eapply returns_bind.
        { apply (returns_mapM
                   (fun o => forall v, o = Some v ->
                      match bare (NamedShape.typeAnnotation v) with
                      | FunctionTypeAnnotation _ _ | VoidTypeAnnotation
                      | PromiseTypeAnnotation => false
                      | _ => legal cxxOnly (NamedShape.typeAnnotation v)
                      end = true)).
          intros property. apply HtryParse.
          destruct property; try apply returns_throwParserError.
          destruct typeAnnotation0 as [propertyType|]; [|apply returns_throw].
          eapply returns_bind; [apply IHt|].
          intros translated Hlegal.
          destruct (legal_unwrapNullable _ _ Hlegal) as [Hwrap Hbare].
          destruct (unwrapNullable translated) as [t isNullable] eqn:Hunwrap.
          simpl in *.
          assert (Hbare' : bare translated = t)
            by (unfold bare; by rewrite Hunwrap).
          destruct t; try apply returns_throwParserError;
            apply returns_ret;
            cbn [NamedShape.typeAnnotation]; rewrite Hwrap, Hbare';
            exact Hlegal. }
        intros parsed Hparsed.
        apply returns_typeAliasResolution. simpl.
        apply forallb_Forall. by apply Forall_omap_id in Hparsed.
      * apply returns_ret. by apply legal_wrapNullable.
      * apply returns_ret. by apply legal_wrapNullable.
      * apply returns_ret. by apply legal_wrapNullable.
      * apply returns_ret. by apply legal_wrapNullable.
      * destruct cxxOnly; [|apply returns_throwParserError].
        apply returns_ret. by apply legal_wrapNullable.
      * apply returns_throwParserError.
      * apply returns_throwParserError.
      * eapply returns_bind; [apply IHf|].
        intros fn Hfn. apply returns_ret. by apply legal_wrapNullable.
      * destruct cxxOnly; [|apply returns_throwParserError].
        case_bool_decide; [apply returns_throwParserError|].
        apply returns_ret. by apply legal_wrapNullable.
      * apply returns_throwParserError.
      * apply returns_throwParserError.
      * apply returns_throwParserError.
      * apply returns_throwParserError.
    + intros name types kind node nullable. cbn [translateArrayTypeAnnotation].
      apply returns_tryCatch.
      * eapply returns_bind; [apply IHn|].
        intros translated Hlegal.
        destruct (legal_unwrapNullable _ _ Hlegal) as [Hwrap Hbare].
        destruct (unwrapNullable translated) as [t isNullable] eqn:Hunwrap.
        simpl in *.
        assert (Hbare' : bare translated = t) by (unfold bare; by rewrite Hunwrap).
        destruct t; try apply returns_throwParserError;
          apply returns_ret; apply legal_wrapNullable;
          cbn [legal]; rewrite Hwrap, Hbare', Hlegal; reflexivity.
      * intros e. apply returns_ret. by apply legal_wrapNullable.
    + intros name node types. cbn [translateFunctionTypeAnnotation].
      assert (Hsignature : forall parameters returnType,
        returns (fun t => legal cxxOnly t = true)
          (let* parsedParams :=
             mapM (fun typeScriptParam =>
                     tryParse _
                       (translateParam fuel name types tryParse cxxOnly
                          typeScriptParam)) parameters in
           let params := omap id parsedParams in
           match returnType with
           | None => throw TypeError
           | Some returnType =>
               let* translated :=
                 translateTypeAnnotation fuel name returnType types tryParse
                   cxxOnly in
               let '(returnTypeAnnotation, isReturnTypeAnnotationNullable) :=
                 unwrapNullable translated in
               match cxxOnly, returnTypeAnnotation with
               | false, FunctionTypeAnnotation _ _ =>
                   throwParserError UnsupportedFunctionReturnTypeAnnotation name
               | _, _ =>
                   ret (FunctionTypeAnnotation
                          (wrapNullable isReturnTypeAnnotationNullable
                             returnTypeAnnotation)
                          params)
               end
           end)).
      { intros parameters returnType. eapply returns_bind.
        { apply (returns_mapM
                   (fun o => forall v, o = Some v ->
                      match bare (NamedShape.typeAnnotation v) with
                      | VoidTypeAnnotation | PromiseTypeAnnotation => false
                      | _ => legal cxxOnly (NamedShape.typeAnnotation v)
                      end = true)).
          intros typeScriptParam. apply HtryParse. unfold translateParam.
          destruct (Param.typeAnnotation typeScriptParam) as [paramType|];
            [|apply returns_throwParserError].
          eapply returns_bind; [apply IHt|].
          intros translated Hlegal.
          destruct (legal_unwrapNullable _ _ Hlegal) as [Hwrap Hbare].
          destruct (unwrapNullable translated) as [t isNullable] eqn:Hunwrap.
          simpl in *.
          assert (Hbare' : bare translated = t)
            by (unfold bare; by rewrite Hunwrap).
          destruct t; try apply returns_throwParserError;
            apply returns_ret;
            cbn [NamedShape.typeAnnotation]; rewrite Hwrap, Hbare';
            exact Hlegal. }
        intros parsed Hparsed. apply Forall_omap_id in Hparsed.
        destruct returnType as [returnType|]; [|apply returns_throw].
        eapply returns_bind; [apply IHt|].
        intros translated Hlegal.
        destruct (legal_unwrapNullable _ _ Hlegal) as [Hwrap Hbare].
        destruct (unwrapNullable translated) as [t isNullable] eqn:Hunwrap.
        simpl in *.
        assert (Hbare' : bare translated = t) by (unfold bare; by rewrite Hunwrap).
        destruct cxxOnly, t; try apply returns_throwParserError;
          apply returns_ret; cbn [legal]; rewrite Hwrap, ?Hbare', Hlegal;
          by rewrite (forallb_Forall _ _ Hparsed). }
      destruct node; try apply returns_throw; apply Hsignature.
Qed.

(** X21: whatever annotation [translateTypeAnnotation] returns under the
    error capturer is legal for the mode, at every depth: nullable layers
    do not nest, no array element is Void, Promise or Function, no object
    member is Function, Void or Promise, no parameter is Void or Promise,
    and with native-only mode off no function returns a function and no
    Union, Mixed or Enum annotation occurs. *)
Theorem returned_annotations_are_legal fuel hasteModuleName node types cxxOnly
    s t s' :
  translateTypeAnnotation fuel hasteModuleName node types guard cxxOnly s
  = (Returned t, s') ->
  legal cxxOnly t = true.
Proof.
  destruct (translators_return_legal cxxOnly fuel guard (@returns_guard))
    as (H & _ & _).
  apply H.
Qed.

Lemma returned_annotations_are_legal_witness :
  legal false
    (ObjectTypeAnnotation
       [NamedShape.mk "sizes" false
          (NullableTypeAnnotation
             (ArrayTypeAnnotation
                (Some (NullableTypeAnnotation NumberTypeAnnotation))))])
  = true.
Proof.
  apply (returned_annotations_are_legal 8 "NativeSample"
           (TSTypeLiteral
              [TSPropertySignature "sizes" false
                 (Some (TSUnionType
                          [TSArrayType
                             (TSUnionType [TSNumberKeyword; TSNullKeyword]);
                           TSNullKeyword]));
               TSPropertySignature "done" false
                 (Some (TSTypeReference "Promise" (Some [TSVoidKeyword])))])
           ∅ false emptyStore _
           {| aliasMap := ∅;
              errors := [{| kind := UnsupportedObjectPropertyValueTypeAnnotation;
                            hasteModuleNameOf := "NativeSample" |}] |}).
  vm_compute. reflexivity.
Defined.

Lemma buildPropertySchema_returns_legal fuel name property types cxxOnly :
  returns (fun shape => legal cxxOnly (NamedShape.typeAnnotation shape) = true)
    (buildPropertySchema fuel name property types guard cxxOnly).
Proof.
  destruct (translators_return_legal cxxOnly fuel guard (@returns_guard))
    as (_ & _ & Hf).
  assert (Hbuild : forall key optional value,
    returns (fun shape => legal cxxOnly (NamedShape.typeAnnotation shape) = true)
      match value with
      | None => throw InvariantViolation
      | Some value =>
          let* resolved := liftOutcome (resolveTypeAnnotation fuel value types) in
          match typeAnnotation resolved with
          | (TSFunctionType _ _ | TSMethodSignature _ _ _ _) as value =>
              let* fn :=
                translateFunctionTypeAnnotation fuel name value types guard
                  cxxOnly in
              ret (NamedShape.mk key optional
                     (wrapNullable (nullable resolved) fn))
          | _ => throwParserError UnsupportedModuleProperty name
          end
      end).
  { intros key optional [value|]; [|apply returns_throw].
    apply (returns_bind (fun _ => True)); [apply returns_True|].
    intros resolved _.
    destruct (typeAnnotation resolved); try apply returns_throwParserError;
      (eapply returns_bind; [apply Hf|]); intros fn Hfn; apply returns_ret;
      by apply legal_wrapNullable. }
  unfold buildPropertySchema.
  destruct property as [| | | | | | | | | | | | | |key optional value
                       |key optional parameters returnType|];
    try apply returns_throw.
  - exact (Hbuild key optional value).
  - exact (Hbuild key optional
             (Some (TSMethodSignature key optional parameters returnType))).
Qed.

(** X22: every method of a schema built under the error capturer is typed
    by an annotation that is legal for the module's own mode, native-only
    exactly when the registered name or the file's module name ends in
    [Cxx]. *)
Theorem schema_methods_are_legal fuel hasteModuleName ast s schema s' :
  buildModuleSchema fuel hasteModuleName ast guard s = (Returned schema, s') ->
  Forall
    (fun shape =>
       legal
         (existsb (fun name => endsWith name "Cxx")
            (moduleNames schema ++ [hasteModuleName]))
         (NamedShape.typeAnnotation shape)
       = true)
    (properties schema).
Proof.
  intros (extends & body & moduleName & s1 & _ & _ & Hbuild)
    %buildModuleSchema_returned.
  pose proof (buildSchemaFromSpec_returned _ _ _ _ _ _ _ _ _ Hbuild) as [-> _].
  unfold buildSchemaFromSpec in Hbuild.
  rewrite validateNames_spec in Hbuild.
  apply bind_inv_returned in Hbuild as (parsed & s2 & Hparsed & [= <- _]).
  rewrite foldl_reducer_properties. simpl.
  set (cxxOnly := existsb _ _) in *.
  assert (Hall : Forall
    (fun o : option (NativeModuleAliasMap * NativeModulePropertyShape) =>
       forall v, o = Some v ->
         legal cxxOnly (NamedShape.typeAnnotation v.2) = true) parsed).
  { revert Hparsed. apply returns_mapM. intros property.
    apply (returns_bind (fun _ => True)); [apply returns_True|]. intros _ _.
    apply returns_guard.
    eapply returns_bind; [apply buildPropertySchema_returns_legal|].
    intros shape Hshape.
    apply (returns_bind (fun _ => True)); [apply returns_True|]. intros am _.
    by apply returns_ret. }
  apply Forall_omap_id in Hall. apply Forall_fmap.
  eapply Forall_impl; [exact Hall|]. by intros [am shape].
Qed.

Lemma schema_methods_are_legal_witness :
  Forall
    (fun shape =>
       legal (existsb (fun name => endsWith name "Cxx") (["SampleCxx"] ++ ["NativeSample"]))
         (NamedShape.typeAnnotation shape)
       = true)
    [NamedShape.mk "level" false
       (FunctionTypeAnnotation
          (UnionTypeAnnotation (Some "NumberTypeAnnotation")) [])].
Proof.
  apply (schema_methods_are_legal 6 "NativeSample"
           {| declarations :=
                [moduleInterface "Spec"
                   [TSMethodSignature "level" false []
                      (Some (TSUnionType [TSLiteralType "NumericLiteral";
                                          TSLiteralType "NumericLiteral"]))]];
              callExpressions := [registryCall "SampleCxx"] |}
           emptyStore
           {| aliases := ∅;
              properties :=
                [NamedShape.mk "level" false
                   (FunctionTypeAnnotation
                      (UnionTypeAnnotation (Some "NumberTypeAnnotation")) [])];
              moduleNames := ["SampleCxx"];
              excludedPlatforms := Some ["iOS"; "android"] |}
           emptyStore).
  vm_compute. reflexivity.
Defined.
